(** * Voice-agent tools and hand-offs of livekitChatBot, embedded in Rocq

    The development follows the repository file by file:
    - [DriveThru]   : src/agent/agent.py    (four cooperating roles, shared
                      [DriveThruData], hand-offs through [_transfer_to_agent]
                      and [on_enter]);
    - [OrderKr]     : src/agent/agent_kr.py (per-item detail collection);
    - [Reservation] : src/agent_test.py     (reservation details);
    - [WavMerger]   : src/wav_merger.py     (batched WAV concatenation).

    Python values are modelled as the code has them: [Optional[T]] is
    [option T], a [float] is a binary64 [PrimFloat.float], a [dict] is a
    [gmap], a [set] is a [gset], a raised exception is an explicit result;
    the quotient [/] of two [int]s is the binary64 quotient of [SpecFloat].
    What the code obtains from libraries outside the repository (the
    voice-agent SDK, PyYAML, Python's [format] and [int]) is an interface
    ([Class]) that the definitions take as a parameter. *)

From Stdlib Require Import ZArith List String Ascii Bool Lia.
From Stdlib Require Import Permutation Sorted PrimFloat DecimalString.
From Stdlib Require DecimalNat SpecFloat.
From stdpp Require Import base option list gmap strings.

Local Open Scope Z_scope.
Local Open Scope nat_scope.

(** The line feed of Python's ["\n"]. *)
Definition nl : string := String (ascii_of_nat 10) EmptyString.

(** Truthiness of a [str]: only the empty string is falsy. *)
Definition str_truthy (s : string) : bool :=
  match s with
  | EmptyString => false
  | String _ _ => true
  end.

(** Truthiness of a [float]: [x != 0.0] in IEEE arithmetic, so [0.0] and
    [-0.0] are falsy and a NaN is truthy. *)
Definition float_truthy (x : float) : bool := negb (PrimFloat.eqb x 0%float).

(** Truthiness of a [list]: only the empty list is falsy. *)
Definition list_truthy {A : Type} (l : list A) : bool :=
  match l with
  | [] => false
  | _ :: _ => true
  end.

(** Truthiness of an [Optional[T]]: [None] is falsy, otherwise as [T]. *)
Definition opt_truthy {A : Type} (truthy : A -> bool) (o : option A) : bool :=
  match o with
  | Some a => truthy a
  | None => false
  end.

(** [o or default] for an optional [o], in a target type [B]. *)
Definition or_else {A B : Type} (truthy : A -> bool) (inj : A -> B)
    (o : option A) (default : B) : B :=
  match o with
  | Some a => if truthy a then inj a else default
  | None => default
  end.

(** The calls the tools make on the conversational runtime:
    [session.interrupt()], [session.generate_reply(...)] with the keyword
    arguments the repository passes ([None] when one is not given), and
    [job_ctx.api.room.delete_room(DeleteRoomRequest(room=...))]. *)
Inductive runtime_request : Type :=
  | Interrupt
  | GenerateReply (instructions : option string)
      (allow_interruptions : option bool) (tool_choice : option string)
  | DeleteRoom (room : string).

Definition is_teardown (r : runtime_request) : bool :=
  match r with
  | DeleteRoom _ => true
  | _ => false
  end.

(** Number of room deletions among the requests issued. *)
Definition teardown_requests (l : list runtime_request) : nat :=
  length (List.filter is_teardown l).

(* ===================================================================== *)
(** * src/agent/agent.py *)
(* ===================================================================== *)
Module DriveThru.

(** The four agent objects built by [entrypoint], one per class. *)
Inductive agent_id : Type :=
  | LaneGreeter
  | BaristaOrderTaker
  | PaymentAgent
  | PickupNotifier.

#[global] Instance agent_id_eq_dec : EqDecision agent_id.
Proof. solve_decision. Defined.

(** [self.__class__.__name__] *)
Definition agent_name (a : agent_id) : string :=
  match a with
  | LaneGreeter => "LaneGreeter"
  | BaristaOrderTaker => "BaristaOrderTaker"
  | PaymentAgent => "PaymentAgent"
  | PickupNotifier => "PickupNotifier"
  end.

(** One entry of [order]: the dict [{"item", "size", "options"}]. *)
Record order_line : Type := OrderLine {
  item : string;
  size : string;
  options : list string;
}.

(** [DriveThruData], field by field. *)
Record DriveThruData : Type := MkData {
  customer_name : option string;
  car_model : option string;
  license_plate : option string;
  order : option (list order_line);
  pay_method : option string;
  expense : option float;
  checked_out : option bool;
  agents : gmap string agent_id;
  prev_agent : option agent_id;
}.

(** [DriveThruData()]: every field at its default. *)
Definition fresh : DriveThruData :=
  MkData None None None None None None None ∅ None.

Definition set_customer_name (v : option string) (d : DriveThruData) :=
  MkData v (car_model d) (license_plate d) (order d) (pay_method d)
         (expense d) (checked_out d) (agents d) (prev_agent d).
Definition set_car_model (v : option string) (d : DriveThruData) :=
  MkData (customer_name d) v (license_plate d) (order d) (pay_method d)
         (expense d) (checked_out d) (agents d) (prev_agent d).
Definition set_license_plate (v : option string) (d : DriveThruData) :=
  MkData (customer_name d) (car_model d) v (order d) (pay_method d)
         (expense d) (checked_out d) (agents d) (prev_agent d).
Definition set_order (v : option (list order_line)) (d : DriveThruData) :=
  MkData (customer_name d) (car_model d) (license_plate d) v (pay_method d)
         (expense d) (checked_out d) (agents d) (prev_agent d).
Definition set_pay_method (v : option string) (d : DriveThruData) :=
  MkData (customer_name d) (car_model d) (license_plate d) (order d) v
         (expense d) (checked_out d) (agents d) (prev_agent d).
Definition set_expense (v : option float) (d : DriveThruData) :=
  MkData (customer_name d) (car_model d) (license_plate d) (order d)
         (pay_method d) v (checked_out d) (agents d) (prev_agent d).
Definition set_checked_out (v : option bool) (d : DriveThruData) :=
  MkData (customer_name d) (car_model d) (license_plate d) (order d)
         (pay_method d) (expense d) v (agents d) (prev_agent d).
Definition set_agents (v : gmap string agent_id) (d : DriveThruData) :=
  MkData (customer_name d) (car_model d) (license_plate d) (order d)
         (pay_method d) (expense d) (checked_out d) v (prev_agent d).
Definition set_prev_agent (v : option agent_id) (d : DriveThruData) :=
  MkData (customer_name d) (car_model d) (license_plate d) (order d)
         (pay_method d) (expense d) (checked_out d) (agents d) v.

(** The values [summarize] puts in its dict. *)
Inductive yaml_value : Type :=
  | YStr (s : string)
  | YFloat (x : float)
  | YBool (b : bool)
  | YOrder (l : list order_line).

(** The dict [data] of [summarize], in insertion order. *)
Definition summary_data (d : DriveThruData) : list (string * yaml_value) :=
  [ ("name", or_else str_truthy YStr (customer_name d) (YStr "unknown"));
    ("car_model", or_else str_truthy YStr (car_model d) (YStr "unknown"));
    ("license_plate",
       or_else str_truthy YStr (license_plate d) (YStr "unknown"));
    ("order", or_else list_truthy YOrder (order d) (YStr "unknown"));
    ("pay_method", or_else str_truthy YStr (pay_method d) (YStr "unknown"));
    ("expense", or_else float_truthy YFloat (expense d) (YStr "unknown"));
    ("checked_out",
       or_else (fun b => b) YBool (checked_out d) (YBool false)) ]%string.

(** [data[key]] on the summary dict. *)
Fixpoint entry (key : string) (data : list (string * yaml_value))
    : option yaml_value :=
  match data with
  | [] => None
  | (k, v) :: rest => if String.eqb key k then Some v else entry key rest
  end.

(** ** Common function tools

    Each tool takes the arguments of the call and [context.userdata], and
    gives back the text it returns with the user data as it leaves it. *)

Definition update_name (name : string) (d : DriveThruData)
    : string * DriveThruData :=
  ("이름을 " +:+ name +:+ "(으)로 저장했습니다.",
   set_customer_name (Some name) d).

Definition update_car_model (model : string) (d : DriveThruData)
    : string * DriveThruData :=
  ("차량 모델을 " +:+ model +:+ "(으)로 저장했습니다.",
   set_car_model (Some model) d).

Definition update_license_plate (plate : string) (d : DriveThruData)
    : string * DriveThruData :=
  ("차량 번호를 " +:+ plate +:+ "(으)로 저장했습니다.",
   set_license_plate (Some plate) d).

(** [data.order = data.order or []] then [data.order.append({...})]. *)
Definition add_item (item size : string) (options : list string)
    (d : DriveThruData) : string * DriveThruData :=
  let order0 := or_else list_truthy (fun l => l) (order d) [] in
  (size +:+ " " +:+ item +:+ " 추가 완료.",
   set_order (Some (order0 ++ [OrderLine item size options])) d).

Definition update_pay_method (method : string) (d : DriveThruData)
    : string * DriveThruData :=
  ("결제 방식을 " +:+ method +:+ "(으)로 설정했습니다.",
   set_pay_method (Some method) d).

(** The order as a list, [order or []]. *)
Definition order_items (d : DriveThruData) : list order_line :=
  or_else list_truthy (fun l => l) (order d) [].

(** A run of [add_item] calls, each given as the record it is to append. *)
Fixpoint add_items (calls : list order_line) (d : DriveThruData)
    : DriveThruData :=
  match calls with
  | [] => d
  | c :: rest => add_items rest (snd (add_item (item c) (size c) (options c) d))
  end.

(** The order holds at least one line. *)
Definition order_nonempty (d : DriveThruData) : Prop :=
  opt_truthy list_truthy (order d) = true.

(** Total and payment method are set only once the order is non-empty. *)
Definition payment_after_order (d : DriveThruData) : Prop :=
  is_Some (expense d) \/ is_Some (pay_method d) -> order_nonempty d.

(** The checkout flag is true only once total and payment method are set. *)
Definition checkout_after_payment (d : DriveThruData) : Prop :=
  checked_out d = Some true ->
  is_Some (expense d) /\ is_Some (pay_method d).

(** ** Chat contexts of the SDK *)

Inductive chat_role : Type := system | developer | user | assistant.

Inductive item_type : Type :=
  | message (role : chat_role)
  | function_call
  | function_call_output.

(** An item of [ChatContext.items]: every kind carries an [id]. *)
Record ChatItem : Type := MkItem {
  id : string;
  type : item_type;
  content : string;
}.

(** A system or developer message: what [exclude_instructions] drops. *)
Definition is_instructions (m : ChatItem) : bool :=
  match type m with
  | message system | message developer => true
  | _ => false
  end.

(** What the module takes from outside the repository. *)
Class Sdk : Type := {
  (** [yaml.dump(data, allow_unicode=True)] *)
  yaml_dump : list (string * yaml_value) -> string;
  (** [f"{total:,.0f}"] *)
  format_total : float -> string;
  (** [ChatContext.copy(exclude_instructions=.., exclude_function_call=..)],
      on the list of items *)
  copy : forall (exclude_instructions exclude_function_call : bool),
      list ChatItem -> list ChatItem;
  (** [ChatContext.truncate(max_items=..)], on the list of items *)
  truncate : forall (max_items : nat), list ChatItem -> list ChatItem;
}.

(** The documented behaviour of [copy] and [truncate] that hand-offs rely
    on: a copy that excludes nothing keeps every item; any copy keeps a
    sub-sequence of the items and, asked to exclude instructions, no system
    or developer message; truncating a context that holds no such message
    keeps at most [max_items] of its items, in their order. *)
Class SdkContract (sdk : Sdk) : Prop := {
  copy_all : forall items, copy false false items = items;
  copy_sublist : forall ei efc items, sublist (copy ei efc items) items;
  copy_no_instructions : forall efc items m,
      m ∈ copy true efc items -> is_instructions m = false;
  truncate_sublist : forall n items,
      (forall m, m ∈ items -> is_instructions m = false) ->
      sublist (truncate n items) items;
  truncate_length : forall n items,
      (forall m, m ∈ items -> is_instructions m = false) ->
      length (truncate n items) <= n;
}.

(** What a tool method hands back to the runtime: a text, or the pair
    (next agent, text) that requests a hand-off. *)
Inductive tool_result : Type :=
  | Reply (text : string)
  | Transfer (next_agent : agent_id) (text : string).

(** A tool call either returns or raises the [KeyError] of
    [userdata.agents[name]]. *)
Inductive outcome : Type :=
  | Returned (r : tool_result)
  | Raised_KeyError (key : string).

(** The running session: the shared user data, the agent in charge, the
    chat context of each agent object, and the requests made on the
    session so far (oldest first). *)
Record Session : Type := MkSession {
  userdata : DriveThruData;
  current_agent : agent_id;
  chat_ctx : agent_id -> list ChatItem;
  requests : list runtime_request;
}.

Definition set_userdata (d : DriveThruData) (s : Session) : Session :=
  MkSession d (current_agent s) (chat_ctx s) (requests s).
Definition set_current_agent (a : agent_id) (s : Session) : Session :=
  MkSession (userdata s) a (chat_ctx s) (requests s).

(** [await self.update_chat_ctx(chat_ctx)] *)
Definition update_chat_ctx (self : agent_id) (items : list ChatItem)
    (s : Session) : Session :=
  MkSession (userdata s) (current_agent s)
    (fun a => if decide (a = self) then items else chat_ctx s a)
    (requests s).

(** [self.session.generate_reply(tool_choice="none")] *)
Definition generate_reply_no_tools (s : Session) : Session :=
  MkSession (userdata s) (current_agent s) (chat_ctx s)
    (requests s ++ [GenerateReply None None (Some "none"%string)]).

(** [chat_ctx.add_message(role=.., content=..)]: the SDK appends a message
    under an identifier of its own making, here [new_id]. *)
Definition add_message (role : chat_role) (text : string) (new_id : string)
    (items : list ChatItem) : list ChatItem :=
  items ++ [MkItem new_id (message role) text].

Section WithSdk.
Context {sdk : Sdk}.

(** [DriveThruData.summarize] *)
Definition summarize (d : DriveThruData) : string :=
  yaml_dump (summary_data d).

(** The items of the previous agent that [on_enter] adds to the items
    [own] of the entered agent (lines 120 to 122). *)
Definition carried (own prev_items : list ChatItem) : list ChatItem :=
  let truncated := truncate 6 (copy true false prev_items) in
  let existing : gset string := list_to_set (id <$> own) in
  filter (fun m => id m ∉ existing) truncated.

(** The content of the system message that [on_enter] adds. *)
Definition summary_message (self : agent_id) (d : DriveThruData) : string :=
  "You are " +:+ agent_name self +:+ ". Current drive‑thru data:" +:+ nl
    +:+ summarize d.

(** [BaseAgent.on_enter] *)
Definition on_enter (self : agent_id) (new_id : string) (s : Session)
    : Session :=
  let userdata := userdata s in
  let chat_ctx0 := copy false false (chat_ctx s self) in
  let chat_ctx1 :=
    match prev_agent userdata with
    | Some prev => chat_ctx0 ++ carried chat_ctx0 (chat_ctx s prev)
    | None => chat_ctx0
    end in
  let chat_ctx2 :=
    add_message system (summary_message self userdata) new_id chat_ctx1 in
  generate_reply_no_tools (update_chat_ctx self chat_ctx2 s).

(** [BaseAgent._transfer_to_agent], with [context.session.current_agent]
    as [current]. *)
Definition _transfer_to_agent (name : string) (current : agent_id)
    (d : DriveThruData) : outcome * DriveThruData :=
  match agents d !! name with
  | None => (Raised_KeyError name, d)
  | Some next_agent =>
      (Returned (Transfer next_agent (name +:+ " 로 이동합니다.")),
       set_prev_agent (Some current) d)
  end.

(** [LaneGreeter.to_order] *)
Definition to_order (current : agent_id) (d : DriveThruData)
    : outcome * DriveThruData :=
  _transfer_to_agent "order" current d.

(** [BaristaOrderTaker.order_done] *)
Definition order_done (current : agent_id) (d : DriveThruData)
    : outcome * DriveThruData :=
  if negb (opt_truthy list_truthy (order d)) then
    (Returned (Reply "아직 주문이 없습니다. 음료/푸드를 알려주세요."), d)
  else _transfer_to_agent "payment" current d.

(** [PaymentAgent.confirm_total] *)
Definition confirm_total (total : float) (d : DriveThruData)
    : string * DriveThruData :=
  ("총 " +:+ format_total total +:+ "원입니다.", set_expense (Some total) d).

(** [PaymentAgent.payment_done] *)
Definition payment_done (current : agent_id) (d : DriveThruData)
    : outcome * DriveThruData :=
  if negb (opt_truthy float_truthy (expense d))
     || negb (opt_truthy str_truthy (pay_method d)) then
    (Returned (Reply "결제 금액 또는 방식을 먼저 확인해주세요."), d)
  else _transfer_to_agent "pickup" current d.

(** [PickupNotifier.pickup_complete] *)
Definition pickup_complete (current : agent_id) (d : DriveThruData)
    : outcome * DriveThruData :=
  _transfer_to_agent "greeter" current (set_checked_out (Some true) d).

(** ** The runtime's tool-calling loop *)

(** A tool call as the LLM issues it: the tool and its validated arguments. *)
Inductive tool_call : Type :=
  | call_update_name (name : string)
  | call_update_car_model (model : string)
  | call_update_license_plate (plate : string)
  | call_add_item (item size : string) (options : list string)
  | call_update_pay_method (method : string)
  | call_to_order
  | call_order_done
  | call_confirm_total (total : float)
  | call_payment_done
  | call_pickup_complete.

(** The tools of each agent: the [tools=[...]] of its constructor and its
    own [@function_tool] methods. *)
Definition exposes (a : agent_id) (c : tool_call) : bool :=
  match a, c with
  | LaneGreeter, call_to_order => true
  | BaristaOrderTaker,
    (call_add_item _ _ _ | call_update_name _ | call_update_car_model _
     | call_update_license_plate _ | call_order_done) => true
  | PaymentAgent,
    (call_update_pay_method _ | call_confirm_total _ | call_payment_done) =>
      true
  | PickupNotifier, call_pickup_complete => true
  | _, _ => false
  end.

Definition returned (r : string * DriveThruData) : outcome * DriveThruData :=
  (Returned (Reply (fst r)), snd r).

(** The body run for a call, [current] being the agent in charge. *)
Definition run_tool (c : tool_call) (current : agent_id) (d : DriveThruData)
    : outcome * DriveThruData :=
  match c with
  | call_update_name name => returned (update_name name d)
  | call_update_car_model model => returned (update_car_model model d)
  | call_update_license_plate plate =>
      returned (update_license_plate plate d)
  | call_add_item item size options => returned (add_item item size options d)
  | call_update_pay_method method => returned (update_pay_method method d)
  | call_to_order => to_order current d
  | call_order_done => order_done current d
  | call_confirm_total total => returned (confirm_total total d)
  | call_payment_done => payment_done current d
  | call_pickup_complete => pickup_complete current d
  end.

(** One tool call in a session. A call to a tool the agent in charge does
    not expose is not made ([None]). On a returned (next agent, text) pair
    the runtime puts the next agent in charge and runs its [on_enter];
    [new_id] is the identifier the SDK gives the message added there. *)
Definition call_tool (c : tool_call) (new_id : string) (s : Session)
    : option (outcome * Session) :=
  if exposes (current_agent s) c then
    let '(r, d) := run_tool c (current_agent s) (userdata s) in
    match r with
    | Returned (Transfer next_agent _) =>
        Some (r, on_enter next_agent new_id
                   (set_current_agent next_agent (set_userdata d s)))
    | _ => Some (r, set_userdata d s)
    end
  else None.

(** The hand-off alone: [_transfer_to_agent] followed by the target's
    [on_enter]; [None] when the target name is not in [agents]. *)
Definition handoff (name : string) (new_id : string) (s : Session)
    : option Session :=
  match _transfer_to_agent name (current_agent s) (userdata s) with
  | (Returned (Transfer next_agent _), d) =>
      Some (on_enter next_agent new_id
              (set_current_agent next_agent (set_userdata d s)))
  | _ => None
  end.

Definition all_agents : list agent_id :=
  [LaneGreeter; BaristaOrderTaker; PaymentAgent; PickupNotifier].

(** No item of any agent's context carries the identifier [i]: the SDK
    draws a new identifier for every item it creates. *)
Definition fresh_id (i : string) (s : Session) : bool :=
  forallb (fun a => forallb (fun m => negb (String.eqb i (id m)))
                      (chat_ctx s a)) all_agents.

(** The runtime records an item (a user turn, a reply, a function call or
    its output) in the context of the agent in charge. *)
Definition record_item (m : ChatItem) (s : Session) : Session :=
  update_chat_ctx (current_agent s) (chat_ctx s (current_agent s) ++ [m]) s.

(** The user data [entrypoint] builds. *)
Definition entrypoint_userdata : DriveThruData :=
  set_agents
    (<["pickup" := PickupNotifier]>
       (<["payment" := PaymentAgent]>
          (<["order" := BaristaOrderTaker]>
             (<["greeter" := LaneGreeter]> (agents fresh)))))
    fresh.

(** [session.start(agent=userdata.agents["greeter"], ...)]: the greeter is
    in charge and is entered. *)
Definition start (new_id : string) : Session :=
  on_enter LaneGreeter new_id
    (MkSession entrypoint_userdata LaneGreeter (fun _ => []) []).

(** One step of a session: a tool call of the agent in charge, or an item
    recorded by the runtime. *)
Inductive step : Session -> Session -> Prop :=
  | step_tool c new_id r s s' :
      fresh_id new_id s = true ->
      call_tool c new_id s = Some (r, s') ->
      step s s'
  | step_item m s :
      fresh_id (id m) s = true ->
      step s (record_item m s).

Inductive reachable : Session -> Prop :=
  | reachable_start new_id : reachable (start new_id)
  | reachable_step s s' : reachable s -> step s s' -> reachable s'.

(** What happens in a session: a tool call, with the identifier the SDK
    draws for the message a hand-off adds, or an item the runtime records. *)
Inductive event : Type :=
  | ev_call (c : tool_call) (new_id : string)
  | ev_item (m : ChatItem).

(** A scripted session run from [s]; [None] when a call is not exposed or
    an identifier is already in use. *)
Fixpoint run_script (script : list event) (s : Session) : option Session :=
  match script with
  | [] => Some s
  | ev_call c new_id :: rest =>
      if fresh_id new_id s then
        match call_tool c new_id s with
        | Some (_, s') => run_script rest s'
        | None => None
        end
      else None
  | ev_item m :: rest =>
      if fresh_id (id m) s then run_script rest (record_item m s) else None
  end.

End WithSdk.

(** What the tool-calling loop keeps true of a session, beyond the two
    properties of the user data: the [agents] dict stays as [entrypoint]
    built it, the payment agent is in charge only of a non-empty order, and
    the pickup notifier only of a paid one. *)
Definition session_inv (s : Session) : Prop :=
  agents (userdata s) = agents entrypoint_userdata
  /\ payment_after_order (userdata s)
  /\ checkout_after_payment (userdata s)
  /\ (current_agent s = PaymentAgent -> order_nonempty (userdata s))
  /\ (current_agent s = PickupNotifier ->
      is_Some (expense (userdata s)) /\ is_Some (pay_method (userdata s))).

(** In every agent's context the identifiers of the items are distinct. *)
Definition distinct_ids (s : Session) : Prop :=
  forall a, NoDup (id <$> chat_ctx s a).

(** The checkout and payment tools. *)
Definition is_checkout_tool (c : tool_call) : bool :=
  match c with
  | call_order_done | call_confirm_total _ | call_payment_done => true
  | _ => false
  end.

(** The summary dict [data] shows every field that is set in [d] with its
    value. *)
Definition reflects_set_fields (d : DriveThruData)
    (data : list (string * yaml_value)) : Prop :=
  (forall v, customer_name d = Some v -> entry "name" data = Some (YStr v))
  /\ (forall v, car_model d = Some v ->
      entry "car_model" data = Some (YStr v))
  /\ (forall v, license_plate d = Some v ->
      entry "license_plate" data = Some (YStr v))
  /\ (forall l, order d = Some l -> entry "order" data = Some (YOrder l))
  /\ (forall v, pay_method d = Some v ->
      entry "pay_method" data = Some (YStr v))
  /\ (forall x, expense d = Some x -> entry "expense" data = Some (YFloat x))
  /\ (forall b, checked_out d = Some b ->
      entry "checked_out" data = Some (YBool b)).

(** The summary dict [data] shows every field that is set in [d] to a
    truthy value with that value, and [checked_out] with its truth value. *)
Definition reflects_truthy_fields (d : DriveThruData)
    (data : list (string * yaml_value)) : Prop :=
  (forall v, customer_name d = Some v -> str_truthy v = true ->
      entry "name" data = Some (YStr v))
  /\ (forall v, car_model d = Some v -> str_truthy v = true ->
      entry "car_model" data = Some (YStr v))
  /\ (forall v, license_plate d = Some v -> str_truthy v = true ->
      entry "license_plate" data = Some (YStr v))
  /\ (forall l, order d = Some l -> list_truthy l = true ->
      entry "order" data = Some (YOrder l))
  /\ (forall v, pay_method d = Some v -> str_truthy v = true ->
      entry "pay_method" data = Some (YStr v))
  /\ (forall x, expense d = Some x -> float_truthy x = true ->
      entry "expense" data = Some (YFloat x))
  /\ (forall b, checked_out d = Some b ->
      entry "checked_out" data = Some (YBool b)).

(** The domain fields of [d'] are those of [d]; only the bookkeeping field
    [prev_agent] may differ. *)
Definition same_domain_fields (d d' : DriveThruData) : Prop :=
  customer_name d' = customer_name d
  /\ car_model d' = car_model d
  /\ license_plate d' = license_plate d
  /\ order d' = order d
  /\ pay_method d' = pay_method d
  /\ expense d' = expense d
  /\ checked_out d' = checked_out d.

(** The summary dict [data] shows "unknown" for every field that is unset
    in [d] or set to a falsy value, and [False] for such a [checked_out]. *)
Definition unknown_for_falsy_fields (d : DriveThruData)
    (data : list (string * yaml_value)) : Prop :=
  (opt_truthy str_truthy (customer_name d) = false ->
      entry "name" data = Some (YStr "unknown"))
  /\ (opt_truthy str_truthy (car_model d) = false ->
      entry "car_model" data = Some (YStr "unknown"))
  /\ (opt_truthy str_truthy (license_plate d) = false ->
      entry "license_plate" data = Some (YStr "unknown"))
  /\ (opt_truthy list_truthy (order d) = false ->
      entry "order" data = Some (YStr "unknown"))
  /\ (opt_truthy str_truthy (pay_method d) = false ->
      entry "pay_method" data = Some (YStr "unknown"))
  /\ (opt_truthy float_truthy (expense d) = false ->
      entry "expense" data = Some (YStr "unknown"))
  /\ (opt_truthy (fun b => b) (checked_out d) = false ->
      entry "checked_out" data = Some (YBool false)).

(** The text [summarize d] is the dump of a dict that holds [shown] under
    [key]. *)
Definition summary_shows {sdk : Sdk} (d : DriveThruData) (key : string)
    (shown : yaml_value) : Prop :=
  exists data, summarize d = yaml_dump data /\ entry key data = Some shown.

(** The field under [key], set to [v] by [set], reads as unset: the summary
    shows [shown] for it, and the summary, like the message a hand-off to
    any agent injects, is the one of the state where the field is [None]. *)
Definition reads_as_unset {sdk : Sdk} {V : Type}
    (set : option V -> DriveThruData -> DriveThruData) (key : string)
    (shown : yaml_value) (v : V) (d : DriveThruData) : Prop :=
  summary_shows (set (Some v) d) key shown
  /\ summarize (set (Some v) d) = summarize (set None d)
  /\ forall self : agent_id,
       summary_message self (set (Some v) d)
       = summary_message self (set None d).

(** A stand-in for the outside interface, to run the definitions on
    concrete inputs: the summary is rendered as its keys, a total as a fixed
    text, [copy] drops what it is asked to exclude, [truncate] keeps the last
    [max_items] items without leading function calls. *)
Fixpoint drop_leading_calls (items : list ChatItem) : list ChatItem :=
  match items with
  | [] => []
  | m :: rest =>
      match type m with
      | function_call | function_call_output => drop_leading_calls rest
      | message _ => items
      end
  end.

Definition sample_copy (exclude_instructions exclude_function_call : bool)
    (items : list ChatItem) : list ChatItem :=
  List.filter
    (fun m =>
       negb (exclude_instructions && is_instructions m)
       && negb (exclude_function_call
                && match type m with message _ => false | _ => true end))
    items.

Definition sample_truncate (max_items : nat) (items : list ChatItem)
    : list ChatItem :=
  drop_leading_calls (skipn (length items - max_items) items).

Definition sample_sdk : Sdk := {|
  yaml_dump := fun data => String.concat ", " (map fst data);
  format_total := fun _ => "<total>"%string;
  copy := sample_copy;
  truncate := sample_truncate;
|}.

(** Sessions to run the definitions on: a customer who has just been
    handed to the order taker ([sample_arrival]); who then gives an empty
    name and orders a latte ([sample_ordering]); who is then handed to the
    payment agent ([sample_paying]); and the same customer with the total
    confirmed, paying by card and served ([sample_served]). *)
Definition sample_arrival : option Session :=
  run_script (sdk := sample_sdk)
    [ ev_item (MkItem "item_2" (message assistant) "어서 오세요!");
      ev_item (MkItem "item_3" (message user) "주문할게요");
      ev_item (MkItem "item_4" function_call "to_order");
      ev_call call_to_order "item_5" ]%string
    (start (sdk := sample_sdk) "item_1").

Definition sample_ordering : option Session :=
  s ← sample_arrival;
  run_script (sdk := sample_sdk)
    [ ev_item (MkItem "item_6" function_call_output "order 로 이동합니다.");
      ev_item (MkItem "item_7" (message assistant) "무엇을 드릴까요?");
      ev_item (MkItem "item_8" (message user) "라떼 톨 사이즈, 오트 밀크");
      ev_item (MkItem "item_9" function_call "update_name");
      ev_call (call_update_name "") "unused_1";
      ev_item (MkItem "item_10" function_call_output "saved");
      ev_item (MkItem "item_11" function_call "add_item");
      ev_call (call_add_item "Caffè Latte" "Tall" ["Oat milk"]) "unused_2";
      ev_item (MkItem "item_12" function_call_output "Tall Caffè Latte");
      ev_item (MkItem "item_13" (message assistant) "더 필요하신가요?");
      ev_item (MkItem "item_14" (message user) "아니요");
      ev_item (MkItem "item_15" function_call "order_done") ]%string s.

Definition sample_paying : option Session :=
  s ← sample_ordering;
  handoff (sdk := sample_sdk) "payment" "item_16" s.

Definition sample_served : option Session :=
  s ← sample_ordering;
  run_script (sdk := sample_sdk)
    [ ev_call call_order_done "item_16";
      ev_call (call_confirm_total 5300%float) "unused_3";
      ev_call (call_update_pay_method "카드") "unused_4";
      ev_call call_payment_done "item_17";
      ev_call call_pickup_complete "item_18" ]%string s.

Definition arrival_session : Session :=
  default (start (sdk := sample_sdk) "item_1") sample_arrival.
Definition ordering_session : Session :=
  default (start (sdk := sample_sdk) "item_1") sample_ordering.
Definition paying_session : Session :=
  default (start (sdk := sample_sdk) "item_1") sample_paying.
Definition served_session : Session :=
  default (start (sdk := sample_sdk) "item_1") sample_served.

(** The sample customer at the pickup window: the order is done, the total
    confirmed and the payment by card made. *)
Definition sample_paid : option Session :=
  s ← sample_ordering;
  run_script (sdk := sample_sdk)
    [ ev_call call_order_done "item_16";
      ev_call (call_confirm_total 5300%float) "unused_3";
      ev_call (call_update_pay_method "카드") "unused_4";
      ev_call call_payment_done "item_17" ]%string s.

Definition paid_session : Session :=
  default (start (sdk := sample_sdk) "item_1") sample_paid.

(** The hand-off cycle the four tools of the agents spell out:
    [to_order], [order_done], [payment_done], [pickup_complete]. *)
Definition next_in_cycle (a : agent_id) : agent_id :=
  match a with
  | LaneGreeter => BaristaOrderTaker
  | BaristaOrderTaker => PaymentAgent
  | PaymentAgent => PickupNotifier
  | PickupNotifier => LaneGreeter
  end.

(** The pickup notifier is in charge only of an order that is non-empty and
    paid: a total that is not zero and a payment method that is not the
    empty string; the payment agent only of a non-empty order. *)
Definition paid_inv (s : Session) : Prop :=
  agents (userdata s) = agents entrypoint_userdata
  /\ (current_agent s = PaymentAgent -> order_nonempty (userdata s))
  /\ (current_agent s = PickupNotifier ->
      order_nonempty (userdata s)
      /\ opt_truthy float_truthy (expense (userdata s)) = true
      /\ opt_truthy str_truthy (pay_method (userdata s)) = true).

(** What a session never takes back: a field that is set stays set, the
    order keeps its lines and only gains lines at the end, and a checkout
    that is marked stays marked. *)
Definition keeps (d d' : DriveThruData) : Prop :=
  (is_Some (customer_name d) -> is_Some (customer_name d'))
  /\ (is_Some (car_model d) -> is_Some (car_model d'))
  /\ (is_Some (license_plate d) -> is_Some (license_plate d'))
  /\ (is_Some (pay_method d) -> is_Some (pay_method d'))
  /\ (is_Some (expense d) -> is_Some (expense d'))
  /\ (checked_out d = Some true -> checked_out d' = Some true)
  /\ order_items d `prefix_of` order_items d'
  /\ agents d' = agents d.

End DriveThru.

(** Decimal text of a number, as [str(n)] and [f"{n}"] give it. *)
Definition dec_nat (n : nat) : string := NilEmpty.string_of_uint (Nat.to_uint n).
Definition dec_Z (z : Z) : string := NilZero.string_of_int (Z.to_int z).

(* ===================================================================== *)
(** * src/agent/agent_kr.py: the [OrderAgent] tools *)
(* ===================================================================== *)
Module OrderKr.

Record OrderItem : Type := MkOrderItem {
  name : string;
  size : option string;
  special_requests : option string;
}.

(** [current_item_index] starts at 0 and is only ever incremented, so it is
    a natural number. *)
Record OrderData : Type := MkOrderData {
  items : list OrderItem;
  current_item_index : nat;
}.

Inductive agent : Type := IntroAgent | OrderAgent.

(** What a tool returns: the pair (next agent or [None], reply), or nothing
    at all (a body without [return]). *)
Inductive tool_return : Type :=
  | ReturnPair (next_agent : option agent) (reply : string)
  | ReturnNone.

(** One line of the read-back, for the item at 0-based position [i]. *)
Definition summary_line (i : nat) (it : OrderItem) : string :=
  dec_nat (i + 1) +:+ ". 메뉴: " +:+ name it
    +:+ ", 사이즈: " +:+ or_else str_truthy (fun s => s) (size it) "미지정"
    +:+ ", 특별 요청: "
    +:+ or_else str_truthy (fun s => s) (special_requests it) "없음"
    +:+ nl.

(** The loop [for i, item in enumerate(items)], from position [i] on. *)
Fixpoint summary_lines (i : nat) (l : list OrderItem) : string :=
  match l with
  | [] => ""
  | it :: rest => summary_line i it +:+ summary_lines (S i) rest
  end.

Definition order_summary (l : list OrderItem) : string :=
  "주문하신 내역 최종 확인해드리겠습니다:" +:+ nl +:+ summary_lines 0 l.

(** [OrderAgent.confirm_full_order] *)
Definition confirm_full_order (d : OrderData) : tool_return * OrderData :=
  if negb (list_truthy (items d)) then
    (ReturnPair None "주문 내역이 없습니다. 주문을 다시 시작해주세요.", d)
  else
    (ReturnPair None
       (order_summary (items d) +:+ nl +:+ "이대로 주문을 진행할까요?"), d).

(** [OrderAgent.add_item_details]. The lookup [items !! current_index] is
    [None] exactly when [current_index >= len(items)]. *)
Definition add_item_details (drink_size : string)
    (special_requests : option string) (d : OrderData)
    : tool_return * OrderData :=
  let current_index := current_item_index d in
  match items d !! current_index with
  | None => confirm_full_order d
  | Some current_item =>
      let d1 :=
        MkOrderData
          (<[current_index :=
               MkOrderItem (name current_item) (Some drink_size)
                 special_requests]> (items d))
          (current_index + 1) in
      match items d1 !! current_item_index d1 with
      | Some next_item =>
          (ReturnPair None
             ("네, '" +:+ name current_item +:+ "'은(는) " +:+ drink_size
                +:+ " 사이즈"
                +:+ (if opt_truthy str_truthy special_requests
                     then ", 특별 요청: "
                            +:+ default "" special_requests
                     else "")
                +:+ " 맞으시죠? 다음 메뉴인 '" +:+ name next_item
                +:+ "'의 사이즈는 어떻게 하시겠어요?"), d1)
      | None => confirm_full_order d1
      end
  end.

(** [OrderAgent.order_confirmed], in the room named [room]: the requests it
    makes, in order. It returns nothing and writes nothing to the data. *)
Definition order_confirmed (room : string) (d : OrderData)
    : tool_return * OrderData * list runtime_request :=
  (ReturnNone, d,
   [ Interrupt;
     GenerateReply
       (Some "주문이 완료되었습니다. 픽업대로 이동해주세요. 감사합니다."%string)
       (Some false) None;
     DeleteRoom room ]).

(** [OrderAgent.order_cancelled] *)
Definition order_cancelled (room : string) (d : OrderData)
    : tool_return * OrderData * list runtime_request :=
  (ReturnNone, d,
   [ Interrupt;
     GenerateReply
       (Some "주문이 취소되었습니다. 다음에 또 이용해주세요. 안녕히 계세요."%string)
       (Some false) None;
     DeleteRoom room ]).

(** The tool calls the LLM can issue to the [OrderAgent]. *)
Inductive tool_call : Type :=
  | call_add_item_details (drink_size : string)
      (special_requests : option string)
  | call_confirm_full_order
  | call_order_confirmed
  | call_order_cancelled.

Definition is_completion (c : tool_call) : bool :=
  match c with
  | call_order_confirmed | call_order_cancelled => true
  | _ => false
  end.

Definition run_tool (room : string) (c : tool_call) (d : OrderData)
    : tool_return * OrderData * list runtime_request :=
  match c with
  | call_add_item_details drink_size special_requests =>
      (add_item_details drink_size special_requests d, [])
  | call_confirm_full_order => (confirm_full_order d, [])
  | call_order_confirmed => order_confirmed room d
  | call_order_cancelled => order_cancelled room d
  end.

(** The calls [cs] run one after the other: the data at the end and all the
    requests made, oldest first. *)
Fixpoint run_calls (room : string) (cs : list tool_call) (d : OrderData)
    : OrderData * list runtime_request :=
  match cs with
  | [] => (d, [])
  | c :: rest =>
      let '(_, d1, issued) := run_tool room c d in
      let '(d2, later) := run_calls room rest d1 in
      (d2, issued ++ later)
  end.

(** ** The [IntroAgent] tool and the helper of the [OrderAgent] *)

(** [text.split(',')]: the pieces between the commas, empty ones kept. *)
Fixpoint split_commas (text : string) : list string :=
  match text with
  | EmptyString => [EmptyString]
  | String c rest =>
      if Ascii.eqb c "," then EmptyString :: split_commas rest
      else match split_commas rest with
           | piece :: more => String c piece :: more
           | [] => [String c EmptyString]
           end
  end.

Section WithStrip.
(** Python's [str.strip()]. *)
Variable strip : string -> string.

(** [[item.strip() for item in menu_items.split(',') if item.strip()]] *)
Definition item_names (menu_items : string) : list string :=
  List.filter str_truthy (map strip (split_commas menu_items)).

(** [IntroAgent.order_started] *)
Definition order_started (menu_items : string) (d : OrderData)
    : tool_return * OrderData :=
  match item_names menu_items with
  | [] =>
      (ReturnPair None "죄송합니다, 주문하실 메뉴를 다시 말씀해주시겠어요?", d)
  | first_item_name :: _ =>
      (ReturnPair (Some OrderAgent)
         (String.concat ", " (item_names menu_items)
            +:+ " 주문 확인했습니다. 첫 번째 메뉴인 '" +:+ first_item_name
            +:+ "'의 사이즈는 어떻게 하시겠어요?"),
       MkOrderData
         (map (fun name => MkOrderItem name None None)
            (item_names menu_items))
         0)
  end.

End WithStrip.

(** [OrderAgent.get_current_item_name] *)
Definition get_current_item_name (d : OrderData) : string :=
  match items d !! current_item_index d with
  | Some it => name it
  | None => "알 수 없는 항목"
  end.

(** The details of one [add_item_details] call written into an item. *)
Definition with_details (it : OrderItem) (details : string * option string)
    : OrderItem :=
  MkOrderItem (name it) (Some (fst details)) (snd details).

(** A run of [add_item_details] calls, one per pair (drink size, special
    requests): the data at the end. *)
Fixpoint run_details (calls : list (string * option string)) (d : OrderData)
    : OrderData :=
  match calls with
  | [] => d
  | c :: rest => run_details rest (snd (add_item_details (fst c) (snd c) d))
  end.

(** What a completion call asks of the runtime, in order. *)
Definition completion_requests (room : string) (c : tool_call)
    : list runtime_request :=
  match c with
  | call_order_confirmed =>
      [ Interrupt;
        GenerateReply
          (Some "주문이 완료되었습니다. 픽업대로 이동해주세요. 감사합니다."%string)
          (Some false) None;
        DeleteRoom room ]
  | call_order_cancelled =>
      [ Interrupt;
        GenerateReply
          (Some "주문이 취소되었습니다. 다음에 또 이용해주세요. 안녕히 계세요."%string)
          (Some false) None;
        DeleteRoom room ]
  | _ => []
  end.

(** ** A session of the [OrderAgent]

    The order data and the requests made on the runtime so far, oldest
    first. [delete_room] closes the room and with it the session (the
    source notes that the agent exits then): the runtime serves a tool
    call only while no deletion of the room has been requested. *)
Record Session : Type := MkSession {
  userdata : OrderData;
  requests : list runtime_request;
}.

Definition room_deleted (s : Session) : bool :=
  existsb is_teardown (requests s).

(** One tool call in a session; [None] when the room is gone. *)
Definition call_tool (room : string) (c : tool_call) (s : Session)
    : option Session :=
  if room_deleted s then None
  else
    let '(_, d, issued) := run_tool room c (userdata s) in
    Some (MkSession d (requests s ++ issued)).

Inductive step (room : string) : Session -> Session -> Prop :=
  | step_call c s s' : call_tool room c s = Some s' -> step room s s'.

(** The session as the [OrderAgent] takes it over, with the data [d]. *)
Definition start (d : OrderData) : Session := MkSession d [].

(** The states a session started on [d] goes through. *)
Definition reachable (room : string) (d : OrderData) (s : Session) : Prop :=
  rtc (step room) (start d) s.


(** A session to run the definitions on: a latte and a muffin, whose
    details the customer has given ([sample_detailed]) and who then
    confirms the order ([sample_closed]). *)
Definition sample_order : OrderData :=
  MkOrderData [MkOrderItem "라떼" None None; MkOrderItem "머핀" None None] 0.



(** ** The read-back of a complete order, written out

    What the customer is to hear once the last details are in: the
    heading, one numbered line per item with its name, its size and its
    special requests, an empty line and the question. *)
Definition read_back_line (i : nat) (it : OrderItem) : string :=
  dec_nat (S i) +:+ ". 메뉴: " +:+ name it
    +:+ ", 사이즈: "
    +:+ match size it with
        | Some (String c rest) => String c rest
        | _ => "미지정"
        end
    +:+ ", 특별 요청: "
    +:+ match special_requests it with
        | Some (String c rest) => String c rest
        | _ => "없음"
        end
    +:+ nl.

Definition read_back (l : list OrderItem) : string :=
  "주문하신 내역 최종 확인해드리겠습니다:" +:+ nl
    +:+ foldr (fun line rest => line +:+ rest) "" (imap read_back_line l)
    +:+ nl +:+ "이대로 주문을 진행할까요?".

(** A stand-in for [strip]: blanks (the space character) only. *)
Fixpoint lstrip_spaces (text : string) : string :=
  match text with
  | String c rest => if Ascii.eqb c " " then lstrip_spaces rest else text
  | EmptyString => EmptyString
  end.

Fixpoint rstrip_spaces (text : string) : string :=
  match text with
  | EmptyString => EmptyString
  | String c rest =>
      match rstrip_spaces rest with
      | EmptyString =>
          if Ascii.eqb c " " then EmptyString else String c EmptyString
      | kept => String c kept
      end
  end.

Definition sample_strip (text : string) : string :=
  rstrip_spaces (lstrip_spaces text).

End OrderKr.

(* ===================================================================== *)
(** * src/agent_test.py: the [ReservationAgent] detail tool *)
(* ===================================================================== *)
Module Reservation.

Record ReservationData : Type := MkReservation {
  name : option string;
  language : option string;
  reservation_type : option string;
  date : option string;
  time : option string;
  party_size : option Z;
  special_requests : option string;
}.

(** [ReservationData()] *)
Definition fresh : ReservationData :=
  MkReservation None (Some "English"%string) None None None None None.

Definition confirmation_text (reservation_type date time : string)
    (party_size : Z) (special_requests : option string) : string :=
  "Thank you! Here are your reservation details:" +:+ nl
    +:+ "Type: " +:+ reservation_type +:+ nl
    +:+ "Date: " +:+ date +:+ nl
    +:+ "Time: " +:+ time +:+ nl
    +:+ "Party Size: " +:+ dec_Z party_size +:+ nl
    +:+ "Special Requests: "
    +:+ or_else str_truthy (fun s => s) special_requests "None" +:+ nl
    +:+ "Would you like to confirm this reservation?".

(** [ReservationAgent.reservation_details]: the returned pair is
    ([None], text), [None] meaning that no other agent takes over. *)
Definition reservation_details (reservation_type date time : string)
    (party_size : Z) (special_requests : option string)
    (d : ReservationData) : (option unit * string) * ReservationData :=
  ((None,
    confirmation_text reservation_type date time party_size special_requests),
   MkReservation (name d) (language d) (Some reservation_type) (Some date)
     (Some time) (Some party_size) special_requests).

(** ** The other tools of src/agent_test.py *)

(** The agent objects: [ReservationAgent(name, language)] is built by the
    hand-off with the name and the language it is to use. *)
Inductive agent : Type :=
  | IntroAgent
  | ReservationAgent (name language : string).

(** [str(x)] of an optional text, as an f-string renders it. *)
Definition py_str (o : option string) : string :=
  match o with
  | Some text => text
  | None => "None"
  end.

(** [IntroAgent.information_gathered] *)
Definition information_gathered (name language : string)
    (d : ReservationData) : (option agent * string) * ReservationData :=
  ((Some (ReservationAgent name language),
    "Let's start making your reservation!"%string),
   MkReservation (Some name) (Some language) (reservation_type d) (date d)
     (time d) (party_size d) (special_requests d)).

(** [ReservationAgent.reservation_confirmed], in the room named [room]:
    the requests it makes, in order; it writes nothing to the data. *)
Definition reservation_confirmed (room : string) (d : ReservationData)
    : ReservationData * list runtime_request :=
  (d,
   [ Interrupt;
     GenerateReply
       (Some ("Confirm the reservation for " +:+ py_str (name d)
                +:+ " and say goodbye."))
       (Some false) None;
     DeleteRoom room ]).

(** [ReservationAgent.reservation_cancelled] *)
Definition reservation_cancelled (room : string) (d : ReservationData)
    : ReservationData * list runtime_request :=
  (d,
   [ Interrupt;
     GenerateReply
       (Some ("Let " +:+ py_str (name d)
                +:+ " know the reservation was cancelled and say goodbye."))
       (Some false) None;
     DeleteRoom room ]).

(** The reservation lacks one detail only: the type, the date, the time
    and the party size are recorded, and no special request is. *)
Definition one_field_left (the_type the_date the_time : string)
    (the_party_size : Z) (d : ReservationData) : Prop :=
  reservation_type d = Some the_type
  /\ date d = Some the_date
  /\ time d = Some the_time
  /\ party_size d = Some the_party_size
  /\ special_requests d = None.

(** The arguments of one [reservation_details] call. *)
Record details : Type := MkDetails {
  d_type : string;
  d_date : string;
  d_time : string;
  d_party_size : Z;
  d_special_requests : option string;
}.

(** A run of [reservation_details] calls: the data at the end. *)
Fixpoint run_details (calls : list details) (d : ReservationData)
    : ReservationData :=
  match calls with
  | [] => d
  | c :: rest =>
      run_details rest
        (snd (reservation_details (d_type c) (d_date c) (d_time c)
                (d_party_size c) (d_special_requests c) d))
  end.

End Reservation.

(* ===================================================================== *)
(** * src/wav_merger.py *)
(* ===================================================================== *)
Module WavMerger.

(** The named tuple of [wave.Wave_read.getparams()]. *)
Record wave_params : Type := MkParams {
  nchannels : Z;
  sampwidth : Z;
  framerate : Z;
  nframes : Z;
  comptype : string;
  compname : string;
}.

#[global] Instance wave_params_eq_dec : EqDecision wave_params.
Proof. solve_decision. Defined.

(** What the function reads of a WAV file: its parameters and the bytes of
    [readframes(getnframes())]. *)
Record wav : Type := MkWav {
  params : wave_params;
  frames : list Byte.byte;
}.

(** A folder as [os.listdir] and [wave.open] show it: the names in the
    order [listdir] gives them, each with the file's content. *)
Definition folder : Type := list (string * wav).

(** [s.endswith(suffix)] *)
Definition endswith (s suffix : string) : bool :=
  (String.length suffix <=? String.length s)
  && String.eqb
       (substring (String.length s - String.length suffix)
          (String.length suffix) s)
       suffix.

(** [p.rfind(".")] *)
Fixpoint rfind_dot (p : string) : option nat :=
  match p with
  | EmptyString => None
  | String c rest =>
      match rfind_dot rest with
      | Some i => Some (S i)
      | None => if Ascii.eqb c "." then Some 0 else None
      end
  end.

Fixpoint all_dots (p : string) : bool :=
  match p with
  | EmptyString => true
  | String c rest => Ascii.eqb c "." && all_dots rest
  end.

(** [os.path.splitext(p)] for a name without a path separator, as
    [listdir] returns them: split at the last dot, unless only dots come
    before it. *)
Definition splitext (p : string) : string * string :=
  match rfind_dot p with
  | Some dotIndex =>
      if all_dots (substring 0 dotIndex p) then (p, ""%string)
      else (substring 0 dotIndex p,
            substring dotIndex (String.length p - dotIndex) p)
  | None => (p, ""%string)
  end.

Inductive py_error : Type :=
  | ValueError_int (literal : string)
  | ZeroDivisionError
  | IndexError
  | ValueError_mismatch (fname : string).

(** The files written so far, oldest first, and the exception that ended
    the call, if any. *)
Record output : Type := MkOutput {
  output_file : string;
  out_params : wave_params;
  out_frames : list (list Byte.byte);
}.

Record run : Type := MkRun {
  written : list output;
  raised : option py_error;
}.

Section WithInt.
(** Python's [int(text)]: [None] stands for its [ValueError]. *)
Variable py_int : string -> option Z.

(** The sort key [int(os.path.splitext(x)[0])] *)
Definition sort_key (x : string) : option Z := py_int (fst (splitext x)).

(** The keys of the files, computed in list order as [sorted] does before
    it compares anything; the first name without a key raises. *)
Fixpoint with_keys (files : folder) : py_error + list (Z * (string * wav)) :=
  match files with
  | [] => inr []
  | f :: rest =>
      match sort_key (fst f) with
      | None => inl (ValueError_int (fst (splitext (fst f))))
      | Some k =>
          match with_keys rest with
          | inl e => inl e
          | inr l => inr ((k, f) :: l)
          end
      end
  end.

End WithInt.

(** Stable insertion into a list sorted by key: before the first element
    whose key is not smaller. *)
Fixpoint insert_by_key {A : Type} (x : Z * A) (l : list (Z * A))
    : list (Z * A) :=
  match l with
  | [] => [x]
  | y :: rest =>
      if (fst x <=? fst y)%Z then x :: y :: rest
      else y :: insert_by_key x rest
  end.

(** [sorted(..., key=...)] on keyed elements: a stable sort. *)
Fixpoint sort_by_key {A : Type} (l : list (Z * A)) : list (Z * A) :=
  match l with
  | [] => []
  | x :: rest => insert_by_key x (sort_by_key rest)
  end.

(** An [int] as [/] reads it: the integer itself, of whatever size, with
    exponent 0. *)
Definition int_as_float (z : Z) : SpecFloat.spec_float :=
  match z with
  | Z0 => SpecFloat.S754_zero false
  | Zpos p => SpecFloat.S754_finite false p 0
  | Zneg p => SpecFloat.S754_finite true p 0
  end.

(** [a / b] on two [int]s, [b] not zero: the quotient rounded to the
    nearest binary64 float, ties to even; a quotient too small for a float
    is 0.0, one too large is the infinity that stands for Python's
    [OverflowError]. *)
Definition true_div (a b : Z) : SpecFloat.spec_float :=
  SpecFloat.SFdiv 53 1024 (int_as_float a) (int_as_float b).

(** [math.ceil(x)] on a finite float; [None] on an infinity or a NaN, which
    Python refuses. *)
Definition math_ceil (x : SpecFloat.spec_float) : option Z :=
  match x with
  | SpecFloat.S754_zero _ => Some 0%Z
  | SpecFloat.S754_finite s m e =>
      let v := if s then Zneg m else Zpos m in
      Some (if (0 <=? e)%Z then (v * 2 ^ e)%Z else (- ((- v) / 2 ^ (- e)))%Z)
  | _ => None
  end.

(** The exact ceiling of [n / batch_size]. *)
Definition ceil_div (n : nat) (batch_size : Z) : Z :=
  (- ((- Z.of_nat n) / batch_size))%Z.

(** [math.ceil(len(files) / batch_size)] for a non-zero [batch_size]: the
    ceiling of the float quotient, which is not always the exact ceiling (a
    quotient that underflows to 0.0 gives 0). The quotient leaves the float
    range only for a list of more than 2^1023 names; no Python list is that
    long ([len] is at most [sys.maxsize]), and the count is taken as the
    exact one there. *)
Definition num_batches (n : nat) (batch_size : Z) : Z :=
  match math_ceil (true_div (Z.of_nat n) batch_size) with
  | Some k => k
  | None => ceil_div n batch_size
  end.

(** [files[batch_idx * batch_size : (batch_idx + 1) * batch_size]], for the
    positive [batch_size] that every iteration of the loop has. *)
Definition batch_slice {A : Type} (batch_size : Z) (batch_idx : nat)
    (files : list A) : list A :=
  firstn (Z.to_nat batch_size) (skipn (batch_idx * Z.to_nat batch_size) files).

(** The inner loop over [batch_files[1:]]: the first file whose parameters
    differ from [params] raises. *)
Fixpoint read_rest (p : wave_params) (rest : list (string * wav))
    : py_error + list (list Byte.byte) :=
  match rest with
  | [] => inr []
  | (fname, w) :: rest' =>
      if decide (params w <> p) then inl (ValueError_mismatch fname)
      else match read_rest p rest' with
           | inl e => inl e
           | inr fs => inr (frames w :: fs)
           end
  end.

(** The body of the loop for one batch. *)
Definition combine_batch (output_prefix : string) (batch_idx : nat)
    (batch_files : list (string * wav)) : py_error + output :=
  match batch_files with
  | [] => inl IndexError
  | (_, first) :: rest =>
      match read_rest (params first) rest with
      | inl e => inl e
      | inr fs =>
          inr (MkOutput (output_prefix +:+ "_" +:+ dec_nat batch_idx +:+ ".wav")
                 (params first) (frames first :: fs))
      end
  end.

(** The loop [for batch_idx in range(num_batches)], over the indices
    still to do. *)
Fixpoint run_batches (output_prefix : string) (batch_size : Z)
    (files : list (string * wav)) (todo : list nat) : run :=
  match todo with
  | [] => MkRun [] None
  | batch_idx :: later =>
      match combine_batch output_prefix batch_idx
              (batch_slice batch_size batch_idx files) with
      | inl e => MkRun [] (Some e)
      | inr o =>
          let r := run_batches output_prefix batch_size files later in
          MkRun (o :: written r) (raised r)
      end
  end.

(** The [.wav] names of the folder in sorted order. *)
Definition sorted_files (py_int : string -> option Z) (dir : folder)
    : py_error + list (string * wav) :=
  match with_keys py_int
          (List.filter (fun f => endswith (fst f) ".wav") dir) with
  | inl e => inl e
  | inr keyed => inr (map snd (sort_by_key keyed))
  end.

(** [combine_wavs_in_batches(wav_folder, batch_size, output_prefix)] *)
Definition combine_wavs_in_batches (py_int : string -> option Z)
    (wav_folder : folder) (batch_size : Z) (output_prefix : string) : run :=
  match sorted_files py_int wav_folder with
  | inl e => MkRun [] (Some e)
  | inr files =>
      if negb (list_truthy files) then MkRun [] None
      else if (batch_size =? 0)%Z then MkRun [] (Some ZeroDivisionError)
      else
        let num_batches := num_batches (length files) batch_size in
        run_batches output_prefix batch_size files
          (seq 0 (Z.to_nat num_batches))
  end.

(** The files cut into ceil(n / batch_size) consecutive batches, in
    order. *)
Definition batches {A : Type} (batch_size : Z) (files : list A)
    : list (list A) :=
  map (fun batch_idx => batch_slice batch_size batch_idx files)
    (seq 0 (Z.to_nat (ceil_div (length files) batch_size))).

(** The name of the output written for a batch. *)
Definition output_name (output_prefix : string) (batch_idx : nat) : string :=
  output_prefix +:+ "_" +:+ dec_nat batch_idx +:+ ".wav".


(** The output [o] holds the frames of the files of [batch], in order,
    under the parameters of its first file. *)
Definition merges (o : output) (batch : list (string * wav)) : Prop :=
  out_frames o = map (fun f => frames (snd f)) batch
  /\ head (map (fun f => params (snd f)) batch) = Some (out_params o).

(** All the files of the batch have the same parameters. *)
Definition same_params (batch : list (string * wav)) : Prop :=
  forall f g, In f batch -> In g batch -> params (snd f) = params (snd g).

(** Two files of the batch have different parameters. *)
Definition mismatch_in (batch : list (string * wav)) : Prop :=
  exists f g, In f batch /\ In g batch /\ params (snd f) <> params (snd g).



(** A stand-in for [int]: unsigned decimal digits only. *)
Definition sample_int (text : string) : option Z :=
  match text with
  | EmptyString => None
  | _ => option_map (fun u => Z.of_nat (Nat.of_uint u))
           (NilEmpty.uint_of_string text)
  end.

(** A folder to run the function on: four recordings listed out of order,
    the first two mono and the last two stereo, beside a text file. *)
Definition mono : wave_params := MkParams 1 2 16000 2 "NONE" "not compressed".
Definition stereo : wave_params :=
  MkParams 2 2 16000 1 "NONE" "not compressed".

Definition sample_folder : folder :=
  [ ("10.wav", MkWav stereo [Byte.x04; Byte.x05; Byte.x06; Byte.x07]);
    ("2.wav", MkWav mono [Byte.x02; Byte.x03; Byte.x02; Byte.x03]);
    ("notes.txt", MkWav mono []);
    ("1.wav", MkWav mono [Byte.x00; Byte.x01; Byte.x00; Byte.x01]);
    ("9.wav", MkWav stereo [Byte.x08; Byte.x09; Byte.x0a; Byte.x0b]) ]%string.

Definition sample_sorted : list (string * wav) :=
  [ ("1.wav", MkWav mono [Byte.x00; Byte.x01; Byte.x00; Byte.x01]);
    ("2.wav", MkWav mono [Byte.x02; Byte.x03; Byte.x02; Byte.x03]);
    ("9.wav", MkWav stereo [Byte.x08; Byte.x09; Byte.x0a; Byte.x0b]);
    ("10.wav", MkWav stereo [Byte.x04; Byte.x05; Byte.x06; Byte.x07]) ]%string.

End WavMerger.

(* ===================================================================== *)
(** * Properties of the drive-thru tools *)
(* ===================================================================== *)
Section DriveThruTools.
Import DriveThru.

Lemma order_items_add_item it sz opts d :
  order_items (snd (add_item it sz opts d))
  = order_items d ++ [OrderLine it sz opts].
Proof.
  unfold add_item, order_items; simpl.
  destruct (order d) as [[|x l]|]; reflexivity.
Qed.

Lemma order_items_add_items calls : forall d,
  order_items (add_items calls d) = order_items d ++ calls.
Proof.
  induction calls as [|c calls IH]; intros d; cbn [add_items].
  - now rewrite app_nil_r.
  - rewrite IH, order_items_add_item. destruct c; cbn [item size options].
    now rewrite <- app_assoc.
Qed.

(** C3: a run of [add_item] calls from any state appends one record per
    call, in call order, so the order grows by the number of calls; and the
    call of Scenario A on the fresh state gives the one-line order. *)
Theorem C3_add_item_appends_in_call_order :
  (forall (calls : list order_line) (d : DriveThruData),
      order_items (add_items calls d) = order_items d ++ calls
      /\ length (order_items (add_items calls d))
         = length (order_items d) + length calls)
  /\ order (snd (add_item "Caffè Latte" "Tall" ["Oat milk"%string] fresh))
     = Some [OrderLine "Caffè Latte" "Tall" ["Oat milk"%string]].
Proof.
  split; [|reflexivity].
  intros calls d. rewrite order_items_add_items. split; [reflexivity|].
  now rewrite length_app.
Qed.

Context {sdk : Sdk}.

Lemma reads_as_unset_intro {V : Type}
    (set : option V -> DriveThruData -> DriveThruData) (key : string)
    (shown : yaml_value) (v : V) (d : DriveThruData) :
  summary_data (set (Some v) d) = summary_data (set None d) ->
  entry key (summary_data (set None d)) = Some shown ->
  reads_as_unset set key shown v d.
Proof.
  intros Hdata Hentry. unfold reads_as_unset, summary_shows, summary_message.
  unfold summarize. rewrite Hdata. split; [|split; [reflexivity|]].
  - exists (summary_data (set None d)). now split.
  - intros self. reflexivity.
Qed.

Lemma str_falsy (text : string) : str_truthy text = false -> text = ""%string.
Proof. destruct text; [reflexivity | discriminate]. Qed.

Lemma list_falsy {A} (l : list A) : list_truthy l = false -> l = [].
Proof. destruct l; [reflexivity | discriminate]. Qed.

(** C10: [summarize] shows a field set to a falsy value as it shows an
    unset one. Whatever the falsy value is (an expense of 0.0 or -0.0, the
    empty string in a text field, the empty order), the text [summarize]
    returns is the dump of a dict with "unknown" under the field's key, and
    that text, like the message a hand-off injects, is the very one of the
    state where the field is [None]; [checked_out] set to [False] reads as
    unset too. *)
Theorem C10_summarize_falsy_as_unset (d : DriveThruData) (x : float)
    (text : string) (lines : list order_line) :
  float_truthy x = false ->
  str_truthy text = false ->
  list_truthy lines = false ->
  reads_as_unset set_expense "expense" (YStr "unknown") x d
  /\ reads_as_unset set_customer_name "name" (YStr "unknown") text d
  /\ reads_as_unset set_car_model "car_model" (YStr "unknown") text d
  /\ reads_as_unset set_license_plate "license_plate" (YStr "unknown") text d
  /\ reads_as_unset set_pay_method "pay_method" (YStr "unknown") text d
  /\ reads_as_unset set_order "order" (YStr "unknown") lines d
  /\ reads_as_unset set_checked_out "checked_out" (YBool false) false d.
Proof.
  intros Hx Htext Hlines.
  apply str_falsy in Htext as ->. apply list_falsy in Hlines as ->.
  repeat match goal with |- _ /\ _ => split end;
    apply reads_as_unset_intro; try reflexivity.
  unfold summary_data, set_expense.
  cbn [expense customer_name car_model license_plate order pay_method
       checked_out or_else].
  now rewrite Hx.
Qed.

End DriveThruTools.

(* ===================================================================== *)
(** * Properties of drive-thru sessions *)
(* ===================================================================== *)
Section DriveThruSessions.
Import DriveThru.
Context {sdk : Sdk}.

Lemma userdata_on_enter a i s : userdata (on_enter a i s) = userdata s.
Proof. reflexivity. Qed.

Lemma current_agent_on_enter a i s :
  current_agent (on_enter a i s) = current_agent s.
Proof. reflexivity. Qed.

Lemma requests_on_enter a i s :
  requests (on_enter a i s)
  = requests s ++ [GenerateReply None None (Some "none"%string)].
Proof. reflexivity. Qed.

Lemma entry_agents_greeter :
  agents entrypoint_userdata !! "greeter"%string = Some LaneGreeter.
Proof. vm_compute. reflexivity. Qed.

Lemma entry_agents_order :
  agents entrypoint_userdata !! "order"%string = Some BaristaOrderTaker.
Proof. vm_compute. reflexivity. Qed.

Lemma entry_agents_payment :
  agents entrypoint_userdata !! "payment"%string = Some PaymentAgent.
Proof. vm_compute. reflexivity. Qed.

Lemma entry_agents_pickup :
  agents entrypoint_userdata !! "pickup"%string = Some PickupNotifier.
Proof. vm_compute. reflexivity. Qed.

(** With the [agents] of [entrypoint], a transfer never raises. *)
Lemma transfer_entry_agents name cur d :
  agents d = agents entrypoint_userdata ->
  In name ["greeter"; "order"; "payment"; "pickup"]%string ->
  exists next,
    agents entrypoint_userdata !! name = Some next
    /\ _transfer_to_agent name cur d
       = (Returned (Transfer next (name +:+ " 로 이동합니다.")),
          set_prev_agent (Some cur) d).
Proof.
  intros Hag Hin. unfold _transfer_to_agent. rewrite Hag.
  assert (exists next, agents entrypoint_userdata !! name = Some next)
    as [next Hnext].
  { simpl in Hin.
    destruct Hin as [<-|[<-|[<-|[<-|[]]]]]; eexists;
      [ apply entry_agents_greeter | apply entry_agents_order
      | apply entry_agents_payment | apply entry_agents_pickup ]. }
  exists next. now rewrite Hnext.
Qed.

Lemma opt_truthy_is_Some {A} (t : A -> bool) (o : option A) :
  opt_truthy t o = true -> is_Some o.
Proof. destruct o; [eauto | discriminate]. Qed.

Lemma payment_after_order_ext d d' :
  order d' = order d -> expense d' = expense d ->
  pay_method d' = pay_method d ->
  payment_after_order d -> payment_after_order d'.
Proof.
  unfold payment_after_order, order_nonempty. intros -> -> ->. tauto.
Qed.

Lemma checkout_after_payment_ext d d' :
  checked_out d' = checked_out d -> expense d' = expense d ->
  pay_method d' = pay_method d ->
  checkout_after_payment d -> checkout_after_payment d'.
Proof.
  unfold checkout_after_payment. intros -> -> ->. tauto.
Qed.

(** Splits a goal [session_inv] into its parts and closes those that hold
    because the fields they read are untouched. *)
Ltac inv_parts :=
  repeat match goal with |- _ /\ _ => split end;
  try assumption;
  try discriminate;
  try (eapply payment_after_order_ext; [reflexivity .. | assumption]);
  try (eapply checkout_after_payment_ext; [reflexivity .. | assumption]).

Lemma session_inv_start i : session_inv (start i).
Proof.
  unfold session_inv, start. rewrite userdata_on_enter, current_agent_on_enter.
  cbn [userdata current_agent]. inv_parts.
  - reflexivity.
  - intros [[x Hx]|[x Hx]]; discriminate.
Qed.

Lemma session_inv_call_tool c i s r s' :
  session_inv s -> call_tool c i s = Some (r, s') -> session_inv s'.
Proof.
  destruct s as [d cur ctx reqs]. unfold session_inv, call_tool.
  cbn [userdata current_agent].
  intros (Hag & Hpo & Hcp & Hpay & Hpick).
  destruct (exposes cur c) eqn:Hex; [|discriminate].
  destruct cur, c; try discriminate Hex; clear Hex;
    cbn [run_tool returned update_name update_car_model update_license_plate
         add_item update_pay_method confirm_total fst snd].
  - (* LaneGreeter.to_order *)
    unfold to_order.
    destruct (transfer_entry_agents "order" LaneGreeter d Hag)
      as (next & Hn & ->); [simpl; tauto|].
    rewrite entry_agents_order in Hn. injection Hn as <-.
    intros [= <- <-]. rewrite userdata_on_enter, current_agent_on_enter.
    cbn [userdata current_agent set_userdata set_current_agent]. inv_parts.
  - (* update_name *)
    intros [= <- <-]. cbn [userdata current_agent set_userdata]. inv_parts.
  - (* update_car_model *)
    intros [= <- <-]. cbn [userdata current_agent set_userdata]. inv_parts.
  - (* update_license_plate *)
    intros [= <- <-]. cbn [userdata current_agent set_userdata]. inv_parts.
  - (* add_item *)
    intros [= <- <-]. cbn [userdata current_agent set_userdata]. inv_parts.
    + intros _. unfold order_nonempty. cbn.
      destruct (or_else list_truthy (fun l => l) (order d) []); reflexivity.
  - (* order_done *)
    unfold order_done.
    destruct (opt_truthy list_truthy (order d)) eqn:Hord; cbn [negb].
    + destruct (transfer_entry_agents "payment" BaristaOrderTaker d Hag)
        as (next & Hn & ->); [simpl; tauto|].
      rewrite entry_agents_payment in Hn. injection Hn as <-.
      intros [= <- <-]. rewrite userdata_on_enter, current_agent_on_enter.
      cbn [userdata current_agent set_userdata set_current_agent]. inv_parts.
      intros _. exact Hord.
    + intros [= <- <-]. cbn [userdata current_agent set_userdata]. inv_parts.
  - (* update_pay_method *)
    intros [= <- <-]. cbn [userdata current_agent set_userdata].
    specialize (Hpay eq_refl). inv_parts.
    + intros _. exact Hpay.
    + intros Hc. destruct (Hcp Hc) as [He _]. split; [exact He|].
      cbn. eauto.
    + intros _. exact Hpay.
  - (* confirm_total *)
    intros [= <- <-]. cbn [userdata current_agent set_userdata].
    specialize (Hpay eq_refl). inv_parts.
    + intros _. exact Hpay.
    + intros Hc. destruct (Hcp Hc) as [_ Hm]. split; [|exact Hm].
      cbn. eauto.
    + intros _. exact Hpay.
  - (* payment_done *)
    unfold payment_done.
    destruct (opt_truthy float_truthy (expense d)) eqn:Hexp; cbn [negb orb].
    2:{ intros [= <- <-]. cbn [userdata current_agent set_userdata].
        inv_parts. }
    destruct (opt_truthy str_truthy (pay_method d)) eqn:Hpm; cbn [negb].
    2:{ intros [= <- <-]. cbn [userdata current_agent set_userdata].
        inv_parts. }
    destruct (transfer_entry_agents "pickup" PaymentAgent d Hag)
      as (next & Hn & ->); [simpl; tauto|].
    rewrite entry_agents_pickup in Hn. injection Hn as <-.
    intros [= <- <-]. rewrite userdata_on_enter, current_agent_on_enter.
    cbn [userdata current_agent set_userdata set_current_agent]. inv_parts.
    intros _. split; eapply opt_truthy_is_Some; eassumption.
  - (* pickup_complete *)
    unfold pickup_complete.
    assert (Hag' : agents (set_checked_out (Some true) d)
                   = agents entrypoint_userdata) by exact Hag.
    destruct (transfer_entry_agents "greeter" PickupNotifier _ Hag')
      as (next & Hn & ->); [simpl; tauto|].
    rewrite entry_agents_greeter in Hn. injection Hn as <-.
    intros [= <- <-]. rewrite userdata_on_enter, current_agent_on_enter.
    cbn [userdata current_agent set_userdata set_current_agent].
    specialize (Hpick eq_refl). inv_parts.
    intros _. exact Hpick.
Qed.

Lemma session_inv_step s s' : session_inv s -> step s s' -> session_inv s'.
Proof.
  intros Hinv Hstep. destruct Hstep as [c i r s s' _ Hcall | m s _].
  - eapply session_inv_call_tool; eassumption.
  - exact Hinv.
Qed.

Lemma reachable_session_inv s : reachable s -> session_inv s.
Proof.
  induction 1 as [i | s s' _ IH Hstep].
  - apply session_inv_start.
  - eapply session_inv_step; eassumption.
Qed.

(** C1: in every session reachable from the start through tool calls of
    the agent in charge (and the hand-offs they return), total and payment
    method are set only if the order is non-empty, and [checked_out] is
    true only if both are set. *)
Theorem C1_payment_fields_follow_order (s : Session) :
  reachable s ->
  payment_after_order (userdata s) /\ checkout_after_payment (userdata s).
Proof.
  intros Hr. destruct (reachable_session_inv s Hr) as (_ & Hpo & Hcp & _).
  split; assumption.
Qed.

Lemma order_items_nil_falsy d :
  order_items d = [] -> opt_truthy list_truthy (order d) = false.
Proof.
  unfold order_items. destruct (order d) as [[|x l]|]; cbn; congruence.
Qed.

Lemma set_userdata_same s : set_userdata (userdata s) s = s.
Proof. now destruct s. Qed.

(** C2 (amended): in a reachable session whose order is empty, a checkout
    or payment tool call that the agent in charge can make is [order_done];
    it returns its clarifying text and leaves the whole session, user data
    and agent in charge included, as it was. *)
Theorem C2_checkout_tools_refuse_empty_order
    (s s' : Session) (c : tool_call) (i : string) (r : outcome) :
  reachable s ->
  order_items (userdata s) = [] ->
  is_checkout_tool c = true ->
  call_tool c i s = Some (r, s') ->
  c = call_order_done
  /\ r = Returned (Reply "아직 주문이 없습니다. 음료/푸드를 알려주세요.")
  /\ s' = s.
Proof.
  intros Hr Hempty Hc Hcall.
  destruct (reachable_session_inv s Hr) as (_ & _ & _ & Hpay & _).
  apply order_items_nil_falsy in Hempty.
  unfold call_tool in Hcall.
  destruct (exposes (current_agent s) c) eqn:Hex; [|discriminate].
  destruct (current_agent s) eqn:Hcur, c; try discriminate Hex;
    try discriminate Hc.
  - cbn [run_tool] in Hcall. unfold order_done in Hcall.
    rewrite Hempty in Hcall. cbn [negb] in Hcall.
    injection Hcall as <- <-. now rewrite set_userdata_same.
  - specialize (Hpay eq_refl). unfold order_nonempty in Hpay. congruence.
  - specialize (Hpay eq_refl). unfold order_nonempty in Hpay. congruence.
Qed.

(** C6: once [confirm_total(5300)] has run on a state without payment
    method, [payment_done] returns its clarifying text and changes nothing:
    the expense is still 5300, [checked_out] and [pay_method] are as before,
    and in a session the payment agent stays in charge. *)
Theorem C6_payment_done_without_method
    (d : DriveThruData) (current : agent_id) :
  pay_method d = None ->
  let d1 := snd (confirm_total 5300%float d) in
  payment_done current d1
  = (Returned (Reply "결제 금액 또는 방식을 먼저 확인해주세요."), d1)
  /\ expense d1 = Some 5300%float
  /\ checked_out d1 = checked_out d
  /\ pay_method d1 = None
  /\ forall (s : Session) (i : string),
       userdata s = d1 -> current_agent s = PaymentAgent ->
       call_tool call_payment_done i s
       = Some (Returned (Reply "결제 금액 또는 방식을 먼저 확인해주세요."), s).
Proof.
  intros Hpm d1.
  assert (Hpm1 : pay_method d1 = None) by exact Hpm.
  assert (Hdone : forall cur, payment_done cur d1
            = (Returned (Reply "결제 금액 또는 방식을 먼저 확인해주세요."), d1)).
  { intros cur. unfold payment_done. rewrite Hpm1. cbn [opt_truthy negb].
    now rewrite orb_true_r. }
  split; [apply Hdone|]. repeat split; try assumption.
  intros s i Hd Hcur. unfold call_tool. rewrite Hcur. cbn [exposes run_tool].
  rewrite Hd, Hdone, <- Hd. now rewrite set_userdata_same.
Qed.

Lemma chat_ctx_on_enter_self a i s :
  chat_ctx (on_enter a i s) a
  = add_message system (summary_message a (userdata s)) i
      (match prev_agent (userdata s) with
       | Some prev =>
           copy false false (chat_ctx s a)
             ++ carried (copy false false (chat_ctx s a)) (chat_ctx s prev)
       | None => copy false false (chat_ctx s a)
       end).
Proof.
  unfold on_enter, generate_reply_no_tools, update_chat_ctx.
  cbn [chat_ctx]. now rewrite decide_True.
Qed.

Lemma chat_ctx_on_enter_other a b i s :
  b <> a -> chat_ctx (on_enter a i s) b = chat_ctx s b.
Proof.
  intros Hne. unfold on_enter, generate_reply_no_tools, update_chat_ctx.
  cbn [chat_ctx]. now rewrite decide_False.
Qed.

Lemma reflects_truthy_summary d : reflects_truthy_fields d (summary_data d).
Proof.
  unfold reflects_truthy_fields, summary_data.
  repeat split; intros v Hv; try intros Ht; cbn; rewrite Hv; cbn;
    try rewrite Ht; try reflexivity.
  destruct v; reflexivity.
Qed.

Lemma unknown_for_falsy_summary d :
  unknown_for_falsy_fields d (summary_data d).
Proof.
  unfold unknown_for_falsy_fields, summary_data.
  repeat split; intros Hfalsy; cbn;
    match goal with
    | |- context [or_else _ _ ?o _] => destruct o as [v|]
    end; cbn in *; try rewrite Hfalsy; reflexivity.
Qed.

(** C4 (amended): a hand-off leaves every domain field of the user data as
    it was; the message it injects is the summary of the data as they were
    before: its text ends in the dump of a dict, the one [summarize] dumps
    after the hand-off too, that shows every field set to a truthy value
    before the hand-off with its value, [checked_out] with its truth value,
    and "unknown" for every field that was unset or set to a falsy value. *)
Theorem C4_handoff_keeps_fields (s s' : Session) (name i : string) :
  handoff name i s = Some s' ->
  same_domain_fields (userdata s) (userdata s')
  /\ summarize (userdata s') = summarize (userdata s)
  /\ last (chat_ctx s' (current_agent s'))
     = Some (MkItem i (message system)
               (summary_message (current_agent s') (userdata s)))
  /\ exists data,
      last (chat_ctx s' (current_agent s'))
      = Some (MkItem i (message system)
                ("You are " +:+ agent_name (current_agent s')
                   +:+ ". Current drive‑thru data:" +:+ nl +:+ yaml_dump data))
      /\ summarize (userdata s') = yaml_dump data
      /\ reflects_truthy_fields (userdata s) data
      /\ unknown_for_falsy_fields (userdata s) data.
Proof.
  unfold handoff, _transfer_to_agent.
  destruct (agents (userdata s) !! name) as [next|]; [|discriminate].
  intros [= <-].
  rewrite userdata_on_enter, current_agent_on_enter.
  cbn [userdata current_agent set_userdata set_current_agent].
  assert (Hlast : last (chat_ctx
                          (on_enter next i
                             (set_current_agent next
                                (set_userdata
                                   (set_prev_agent (Some (current_agent s))
                                      (userdata s)) s))) next)
                  = Some (MkItem i (message system)
                            (summary_message next (userdata s)))).
  { rewrite chat_ctx_on_enter_self. unfold add_message.
    now rewrite last_snoc. }
  split; [|split; [|split]].
  - repeat split.
  - reflexivity.
  - exact Hlast.
  - exists (summary_data (userdata s)).
    split; [exact Hlast|]. split; [reflexivity|].
    split; [apply reflects_truthy_summary | apply unknown_for_falsy_summary].
Qed.

Lemma run_script_reachable script : forall s s',
  reachable s -> run_script script s = Some s' -> reachable s'.
Proof.
  induction script as [|[c i|m] rest IH]; intros s s' Hr; cbn [run_script].
  - intros [= <-]. exact Hr.
  - destruct (fresh_id i s) eqn:Hfresh; [|discriminate].
    destruct (call_tool c i s) as [[r s1]|] eqn:Hcall; [|discriminate].
    apply IH. eapply reachable_step; [exact Hr|].
    eapply step_tool; eassumption.
  - destruct (fresh_id (id m) s) eqn:Hfresh; [|discriminate].
    apply IH. eapply reachable_step; [exact Hr|].
    apply step_item. exact Hfresh.
Qed.

End DriveThruSessions.

Section ChatContexts.
Import DriveThru.
Context {sdk : Sdk} {contract : SdkContract sdk}.

Lemma fresh_id_not_elem i s a :
  fresh_id i s = true -> i ∉ id <$> chat_ctx s a.
Proof.
  unfold fresh_id. intros Hall.
  assert (Ha : forallb (fun m => negb (String.eqb i (id m))) (chat_ctx s a)
               = true).
  { rewrite forallb_forall in Hall. apply Hall.
    destruct a; simpl; tauto. }
  intros (m & -> & Hm)%list_elem_of_fmap.
  rewrite forallb_forall in Ha. apply list_elem_of_In in Hm.
  specialize (Ha m Hm). now rewrite String.eqb_refl in Ha.
Qed.

Lemma copied_no_instructions prev_items m :
  m ∈ copy true false prev_items -> is_instructions m = false.
Proof. apply copy_no_instructions. Qed.

Lemma carried_sublist own prev_items :
  carried own prev_items `sublist_of` prev_items.
Proof.
  unfold carried. etransitivity; [apply sublist_filter|].
  etransitivity; [apply truncate_sublist, copied_no_instructions|].
  apply copy_sublist.
Qed.

Lemma carried_length own prev_items : length (carried own prev_items) <= 6.
Proof.
  unfold carried. etransitivity; [apply length_filter|].
  apply truncate_length, copied_no_instructions.
Qed.

Lemma carried_not_own own prev_items m :
  m ∈ carried own prev_items -> id m ∉ id <$> own.
Proof.
  unfold carried. intros [Hnew _]%list_elem_of_filter.
  now rewrite elem_of_list_to_set in Hnew.
Qed.

(** The context [on_enter] builds has distinct identifiers when the two
    contexts it reads have and the new identifier is in neither. *)
Lemma merged_distinct own prev_items i text :
  NoDup (id <$> own) -> NoDup (id <$> prev_items) ->
  i ∉ id <$> own -> i ∉ id <$> prev_items ->
  NoDup (id <$> add_message system text i
                  (own ++ carried own prev_items)).
Proof.
  intros Hown Hprev Hi_own Hi_prev. unfold add_message.
  rewrite !fmap_app. cbn [fmap list_fmap id].
  assert (Hsub : (id <$> carried own prev_items) `sublist_of`
                 (id <$> prev_items))
    by (apply fmap_sublist, carried_sublist).
  apply NoDup_app. split; [|split; [|apply NoDup_singleton]].
  - apply NoDup_app. split; [exact Hown|]. split.
    + intros x Hx (m & -> & Hm)%list_elem_of_fmap.
      exact (carried_not_own _ _ _ Hm Hx).
    + eapply sublist_NoDup; eassumption.
  - intros x Hx ->%list_elem_of_singleton.
    apply elem_of_app in Hx as [Hx|Hx]; [exact (Hi_own Hx)|].
    apply Hi_prev. eapply elem_of_sublist; eassumption.
Qed.

Lemma distinct_ids_on_enter a i s :
  distinct_ids s -> fresh_id i s = true -> distinct_ids (on_enter a i s).
Proof.
  intros Hinv Hfresh b. destruct (decide (b = a)) as [->|Hne].
  - rewrite chat_ctx_on_enter_self, copy_all.
    destruct (prev_agent (userdata s)) as [prev|].
    + apply merged_distinct; auto using fresh_id_not_elem.
    + unfold add_message. rewrite fmap_app. apply NoDup_app.
      split; [apply Hinv|]. split; [|apply NoDup_singleton].
      intros x Hx ->%list_elem_of_singleton.
      exact (fresh_id_not_elem _ _ _ Hfresh Hx).
  - rewrite chat_ctx_on_enter_other by exact Hne. apply Hinv.
Qed.

Lemma distinct_ids_start i : distinct_ids (start i).
Proof.
  apply distinct_ids_on_enter; [|reflexivity].
  intros a. cbn. constructor.
Qed.

Lemma distinct_ids_call_tool c i s r s' :
  distinct_ids s -> fresh_id i s = true ->
  call_tool c i s = Some (r, s') -> distinct_ids s'.
Proof.
  intros Hinv Hfresh. unfold call_tool.
  destruct (exposes (current_agent s) c); [|discriminate].
  destruct (run_tool c (current_agent s) (userdata s)) as [r0 d].
  destruct r0 as [[text|next text]|key]; intros [= <- <-];
    try exact Hinv.
  apply distinct_ids_on_enter; [exact Hinv | exact Hfresh].
Qed.

Lemma distinct_ids_record_item m s :
  distinct_ids s -> fresh_id (id m) s = true ->
  distinct_ids (record_item m s).
Proof.
  intros Hinv Hfresh a. unfold record_item, update_chat_ctx. cbn [chat_ctx].
  destruct (decide (a = current_agent s)) as [->|Hne]; [|apply Hinv].
  rewrite fmap_app. apply NoDup_app.
  split; [apply Hinv|]. split; [|apply NoDup_singleton].
  intros x Hx ->%list_elem_of_singleton.
  exact (fresh_id_not_elem _ _ _ Hfresh Hx).
Qed.

Lemma reachable_distinct_ids s : reachable s -> distinct_ids s.
Proof.
  induction 1 as [i | s s' _ IH Hstep].
  - apply distinct_ids_start.
  - destruct Hstep as [c i r s s' Hfresh Hcall | m s Hfresh].
    + eapply distinct_ids_call_tool; eassumption.
    + apply distinct_ids_record_item; assumption.
Qed.

(** A tool that asks for a hand-off has recorded the agent in charge as
    [prev_agent]. *)
Lemma run_tool_transfer_prev c cur d next text d' :
  run_tool c cur d = (Returned (Transfer next text), d') ->
  prev_agent d' = Some cur.
Proof.
  assert (Ht : forall name d0,
             _transfer_to_agent name cur d0
             = (Returned (Transfer next text), d') ->
             prev_agent d' = Some cur).
  { intros name d0. unfold _transfer_to_agent.
    destruct (agents d0 !! name); intros [= <- <- <-]; reflexivity. }
  destruct c; cbn [run_tool returned]; try discriminate.
  - apply Ht.
  - unfold order_done.
    destruct (negb (opt_truthy list_truthy (order d)));
      [discriminate | apply Ht].
  - unfold payment_done.
    destruct (negb (opt_truthy float_truthy (expense d))
              || negb (opt_truthy str_truthy (pay_method d)));
      [discriminate | apply Ht].
  - apply Ht.
Qed.

(** C5: at every hand-off of a reachable session, the items carried from
    the previous agent's history into the entered agent's context are at
    most 6, all from that history (in its order), and the merged context,
    with the summary message added last, has no two items with the same
    identifier. *)
Theorem C5_carried_history_bounded_and_distinct
    (s s' : Session) (c : tool_call) (i : string)
    (next : agent_id) (text : string) :
  reachable s ->
  fresh_id i s = true ->
  call_tool c i s = Some (Returned (Transfer next text), s') ->
  let slice := carried (chat_ctx s next) (chat_ctx s (current_agent s)) in
  length slice <= 6
  /\ slice `sublist_of` chat_ctx s (current_agent s)
  /\ chat_ctx s' next
     = chat_ctx s next ++ slice
       ++ [MkItem i (message system) (summary_message next (userdata s'))]
  /\ NoDup (id <$> chat_ctx s' next).
Proof.
  intros Hr Hfresh Hcall slice.
  split; [apply carried_length|]. split; [apply carried_sublist|].
  split.
  - unfold call_tool in Hcall.
    destruct (exposes (current_agent s) c); [|discriminate].
    destruct (run_tool c (current_agent s) (userdata s)) as [r0 d] eqn:Hrun.
    destruct r0 as [[text0|next0 text0]|key]; try discriminate.
    injection Hcall as <- <- <-.
    apply run_tool_transfer_prev in Hrun.
    rewrite chat_ctx_on_enter_self, userdata_on_enter, copy_all.
    cbn [userdata chat_ctx set_userdata set_current_agent].
    rewrite Hrun. unfold add_message. now rewrite <- app_assoc.
  - eapply distinct_ids_call_tool; [|exact Hfresh|exact Hcall].
    now apply reachable_distinct_ids.
Qed.

End ChatContexts.

Section SampleSdk.
Import DriveThru.

Lemma List_filter_sublist {A} (f : A -> bool) (l : list A) :
  List.filter f l `sublist_of` l.
Proof.
  induction l as [|x l IH]; cbn; [constructor|].
  destruct (f x); now constructor.
Qed.

Lemma drop_leading_calls_sublist items :
  drop_leading_calls items `sublist_of` items.
Proof.
  induction items as [|m items IH]; cbn; [constructor|].
  destruct (type m); [reflexivity | now constructor ..].
Qed.

(** The stand-in behaves as the contract says. *)
Lemma sample_sdk_contract : SdkContract sample_sdk.
Proof.
  split.
  - intros items. change (sample_copy false false items = items).
    unfold sample_copy. induction items as [|m items IH]; [reflexivity|].
    cbn [List.filter andb negb]. now f_equal.
  - intros ei efc items. apply List_filter_sublist.
  - intros efc items m Hm. cbn in Hm. unfold sample_copy in Hm.
    apply list_elem_of_In, filter_In in Hm as [_ Hm].
    cbn in Hm. destruct (is_instructions m); [discriminate|reflexivity].
  - intros n items _. cbn. unfold sample_truncate.
    etransitivity; [apply drop_leading_calls_sublist|]. apply sublist_drop.
  - intros n items _. cbn. unfold sample_truncate.
    etransitivity;
      [apply sublist_length, drop_leading_calls_sublist|].
    rewrite length_skipn. lia.
Qed.

End SampleSdk.

Section DriveThruSamples.
Import DriveThru.

Lemma arrival_session_reachable :
  reachable (sdk := sample_sdk) arrival_session.
Proof.
  assert (Hs : sample_arrival = Some arrival_session)
    by (vm_compute; reflexivity).
  eapply run_script_reachable; [|exact Hs]. apply reachable_start.
Defined.

Lemma ordering_session_reachable :
  reachable (sdk := sample_sdk) ordering_session.
Proof.
  assert (Hs : sample_ordering = Some ordering_session)
    by (vm_compute; reflexivity).
  apply bind_Some in Hs as (s1 & H1 & H2).
  eapply run_script_reachable; [|exact H2].
  eapply run_script_reachable; [|exact H1].
  apply reachable_start.
Defined.

Lemma served_session_reachable : reachable (sdk := sample_sdk) served_session.
Proof.
  assert (Hs : sample_served = Some served_session) by (vm_compute; reflexivity).
  apply bind_Some in Hs as (s1 & H1 & H2).
  eapply run_script_reachable; [|exact H2].
  assert (H1' : s1 = ordering_session).
  { assert (Ho : sample_ordering = Some ordering_session)
      by (vm_compute; reflexivity).
    congruence. }
  rewrite H1'. apply ordering_session_reachable.
Defined.

Lemma C1_witness :
  payment_after_order (userdata served_session)
  /\ checkout_after_payment (userdata served_session).
Proof.
  exact (C1_payment_fields_follow_order (sdk := sample_sdk) served_session
           served_session_reachable).
Defined.

(** C2 as stated fails: on the fresh state, whose order is unset,
    [confirm_total] returns the total and sets [expense]; and with total and
    payment method set while the order is unset, [payment_done] hands off
    to the pickup notifier. *)
Lemma C2_counterexample :
  (order_items fresh = []
   /\ run_tool (sdk := sample_sdk) (call_confirm_total 5300%float)
        PaymentAgent fresh
      = (Returned (Reply "총 <total>원입니다."),
         set_expense (Some 5300%float) fresh)
   /\ expense (set_expense (Some 5300%float) fresh) <> expense fresh)
  /\ (let d := set_pay_method (Some "카드"%string)
                 (set_expense (Some 5300%float) entrypoint_userdata) in
      order_items d = []
      /\ run_tool (sdk := sample_sdk) call_payment_done PaymentAgent d
         = (Returned (Transfer PickupNotifier "pickup 로 이동합니다."),
            set_prev_agent (Some PaymentAgent) d)).
Proof.
  split; [split; [reflexivity | split; [reflexivity | discriminate]]|].
  split; [reflexivity | vm_compute; reflexivity].
Qed.

Lemma C2_witness :
  call_order_done = call_order_done
  /\ Returned (Reply "아직 주문이 없습니다. 음료/푸드를 알려주세요.")
     = Returned (Reply "아직 주문이 없습니다. 음료/푸드를 알려주세요.")
  /\ arrival_session = arrival_session.
Proof.
  apply (C2_checkout_tools_refuse_empty_order (sdk := sample_sdk)
           arrival_session arrival_session call_order_done "item_6"
           (Returned (Reply "아직 주문이 없습니다. 음료/푸드를 알려주세요."))).
  - exact arrival_session_reachable.
  - vm_compute. reflexivity.
  - reflexivity.
  - vm_compute. reflexivity.
Defined.

(** C4 as stated fails: the customer's name is set (to the empty string)
    before the hand-off to the payment agent, and the message injected
    after it is the one of the state where the name is unset: whatever
    [yaml.dump] does, the summary of the two states is the same text, the
    dump of a dict with "unknown" under "name". *)
Lemma C4_counterexample :
  handoff (sdk := sample_sdk) "payment" "item_16" ordering_session
  = Some paying_session
  /\ customer_name (userdata ordering_session) = Some ""%string
  /\ last (chat_ctx paying_session PaymentAgent)
     = Some (MkItem "item_16" (message system)
               (summary_message (sdk := sample_sdk) PaymentAgent
                  (set_customer_name None (userdata ordering_session))))
  /\ (forall sdk : Sdk,
        summarize (userdata ordering_session)
        = summarize (set_customer_name None (userdata ordering_session))
        /\ summary_shows (userdata ordering_session) "name" (YStr "unknown"))
  /\ ~ reflects_set_fields (userdata ordering_session)
        (summary_data (userdata paying_session)).
Proof.
  split; [vm_compute; reflexivity|].
  split; [vm_compute; reflexivity|].
  split; [vm_compute; reflexivity|].
  split.
  - intros sdk.
    assert (Hdata : summary_data (userdata ordering_session)
                    = summary_data
                        (set_customer_name None (userdata ordering_session)))
      by (vm_compute; reflexivity).
    split; [unfold summarize; now rewrite Hdata|].
    exists (summary_data (userdata ordering_session)).
    split; [reflexivity | vm_compute; reflexivity].
  - intros (Hname & _).
    specialize (Hname ""%string ltac:(vm_compute; reflexivity)).
    vm_compute in Hname. discriminate Hname.
Qed.

Lemma C4_witness :
  same_domain_fields (userdata ordering_session) (userdata paying_session)
  /\ summarize (sdk := sample_sdk) (userdata paying_session)
     = summarize (sdk := sample_sdk) (userdata ordering_session)
  /\ last (chat_ctx paying_session (current_agent paying_session))
     = Some (MkItem "item_16" (message system)
               (summary_message (sdk := sample_sdk)
                  (current_agent paying_session) (userdata ordering_session)))
  /\ exists data,
      last (chat_ctx paying_session (current_agent paying_session))
      = Some (MkItem "item_16" (message system)
                ("You are " +:+ agent_name (current_agent paying_session)
                   +:+ ". Current drive‑thru data:" +:+ nl
                   +:+ yaml_dump (Sdk := sample_sdk) data))
      /\ summarize (sdk := sample_sdk) (userdata paying_session)
         = yaml_dump (Sdk := sample_sdk) data
      /\ reflects_truthy_fields (userdata ordering_session) data
      /\ unknown_for_falsy_fields (userdata ordering_session) data.
Proof.
  apply (C4_handoff_keeps_fields (sdk := sample_sdk) ordering_session
           paying_session "payment" "item_16").
  vm_compute. reflexivity.
Defined.

(** The falsy values of the witness: the float -0.0, the empty string and
    the empty order. *)
Lemma C10_witness :
  reads_as_unset (sdk := sample_sdk) set_expense "expense" (YStr "unknown")
    (-0)%float fresh
  /\ reads_as_unset (sdk := sample_sdk) set_customer_name "name"
       (YStr "unknown") ""%string fresh
  /\ reads_as_unset (sdk := sample_sdk) set_car_model "car_model"
       (YStr "unknown") ""%string fresh
  /\ reads_as_unset (sdk := sample_sdk) set_license_plate "license_plate"
       (YStr "unknown") ""%string fresh
  /\ reads_as_unset (sdk := sample_sdk) set_pay_method "pay_method"
       (YStr "unknown") ""%string fresh
  /\ reads_as_unset (sdk := sample_sdk) set_order "order" (YStr "unknown")
       [] fresh
  /\ reads_as_unset (sdk := sample_sdk) set_checked_out "checked_out"
       (YBool false) false fresh.
Proof.
  apply (C10_summarize_falsy_as_unset (sdk := sample_sdk) fresh (-0)%float
           ""%string []); reflexivity.
Defined.

Lemma C6_witness :
  let d1 := snd (confirm_total (sdk := sample_sdk) 5300%float fresh) in
  payment_done PaymentAgent d1
  = (Returned (Reply "결제 금액 또는 방식을 먼저 확인해주세요."), d1)
  /\ expense d1 = Some 5300%float
  /\ checked_out d1 = checked_out fresh
  /\ pay_method d1 = None
  /\ forall (s : Session) (i : string),
       userdata s = d1 -> current_agent s = PaymentAgent ->
       call_tool (sdk := sample_sdk) call_payment_done i s
       = Some (Returned (Reply "결제 금액 또는 방식을 먼저 확인해주세요."), s).
Proof.
  apply (C6_payment_done_without_method (sdk := sample_sdk) fresh
           PaymentAgent).
  reflexivity.
Defined.

Lemma C5_witness :
  let slice := carried (sdk := sample_sdk)
                 (chat_ctx ordering_session PaymentAgent)
                 (chat_ctx ordering_session (current_agent ordering_session)) in
  length slice <= 6
  /\ slice `sublist_of` chat_ctx ordering_session
                          (current_agent ordering_session)
  /\ chat_ctx paying_session PaymentAgent
     = chat_ctx ordering_session PaymentAgent ++ slice
       ++ [MkItem "item_16" (message system)
             (summary_message (sdk := sample_sdk) PaymentAgent
                (userdata paying_session))]
  /\ NoDup (id <$> chat_ctx paying_session PaymentAgent).
Proof.
  apply (C5_carried_history_bounded_and_distinct (sdk := sample_sdk)
           (contract := sample_sdk_contract)
           ordering_session paying_session call_order_done "item_16"
           PaymentAgent "payment 로 이동합니다.").
  - exact ordering_session_reachable.
  - vm_compute. reflexivity.
  - vm_compute. reflexivity.
Defined.

(** In the sample the order taker's history holds fourteen items; the three
    carried over are the last six without the leading function calls. *)
Example sample_carried_ids :
  id <$> carried (sdk := sample_sdk)
           (chat_ctx ordering_session PaymentAgent)
           (chat_ctx ordering_session BaristaOrderTaker)
  = ["item_13"; "item_14"; "item_15"]%string
  /\ length (chat_ctx ordering_session BaristaOrderTaker) = 14.
Proof. split; vm_compute; reflexivity. Qed.

End DriveThruSamples.

(* ===================================================================== *)
(** * Completion tools and the detail-collecting flow *)
(* ===================================================================== *)
Section Completion.

Lemma teardown_requests_app l1 l2 :
  teardown_requests (l1 ++ l2) = teardown_requests l1 + teardown_requests l2.
Proof. unfold teardown_requests. now rewrite List.filter_app, length_app. Qed.

Lemma run_tool_teardowns room c d :
  teardown_requests (snd (OrderKr.run_tool room c d))
  = if OrderKr.is_completion c then 1 else 0.
Proof. destruct c; reflexivity. Qed.

Lemma run_calls_teardowns room cs : forall d,
  teardown_requests (snd (OrderKr.run_calls room cs d))
  = length (List.filter OrderKr.is_completion cs).
Proof.
  induction cs as [|c cs IH]; intros d; [reflexivity|].
  cbn [OrderKr.run_calls List.filter].
  pose proof (run_tool_teardowns room c d) as Hc.
  destruct (OrderKr.run_tool room c d) as [[r d1] issued].
  specialize (IH d1).
  destruct (OrderKr.run_calls room cs d1) as [d2 later].
  cbn [snd] in *. rewrite teardown_requests_app, Hc, IH.
  now destruct (OrderKr.is_completion c).
Qed.

(** ** Sessions of the order agent *)










(** Without the end of the session at the room deletion the bound would
    not hold: the tools themselves have no guard, and run one after the
    other two completion calls ask for two deletions. *)
Example completion_tools_have_no_guard :
  teardown_requests
    (snd (OrderKr.run_calls "room"
            [OrderKr.call_order_confirmed; OrderKr.call_order_cancelled]
            OrderKr.sample_order))
  = 2.
Proof. reflexivity. Qed.

End Completion.

Section DetailFlow.

Lemma summary_not_empty_order l :
  l <> [] ->
  forall idx,
    OrderKr.confirm_full_order (OrderKr.MkOrderData l idx)
    = (OrderKr.ReturnPair None
         (OrderKr.order_summary l +:+ nl +:+ "이대로 주문을 진행할까요?"),
       OrderKr.MkOrderData l idx).
Proof.
  intros Hne idx. unfold OrderKr.confirm_full_order. cbn [OrderKr.items].
  destruct l; [contradiction|reflexivity].
Qed.

Lemma string_append_assoc (a b c : string) :
  (a +:+ b) +:+ c = a +:+ (b +:+ c).
Proof.
  induction a as [|x a IH]; [reflexivity|].
  change (String x ((a +:+ b) +:+ c) = String x (a +:+ (b +:+ c))).
  now rewrite IH.
Qed.

Lemma summary_line_written i it :
  OrderKr.summary_line i it = OrderKr.read_back_line i it.
Proof.
  unfold OrderKr.summary_line, OrderKr.read_back_line.
  rewrite Nat.add_1_r.
  destruct (OrderKr.size it) as [[|c1 r1]|];
    destruct (OrderKr.special_requests it) as [[|c2 r2]|]; reflexivity.
Qed.

Lemma summary_lines_written l : forall k,
  OrderKr.summary_lines k l
  = foldr (fun line rest => line +:+ rest) ""%string
      (imap (fun i => OrderKr.read_back_line (k + i)) l).
Proof.
  induction l as [|it l IH]; intros k; [reflexivity|].
  cbn [OrderKr.summary_lines]. rewrite imap_cons. cbn [foldr fold_right].
  rewrite Nat.add_0_r, summary_line_written, IH. do 2 f_equal.
  apply imap_ext. intros i x _. cbn. f_equal. lia.
Qed.

Lemma order_summary_written l :
  OrderKr.order_summary l +:+ nl +:+ "이대로 주문을 진행할까요?"
  = OrderKr.read_back l.
Proof.
  unfold OrderKr.order_summary, OrderKr.read_back.
  rewrite (summary_lines_written l 0). cbn [Nat.add].
  now rewrite !string_append_assoc.
Qed.

(** C8: with one detail left, the call that supplies it returns the full
    summary in its own result. In the reservation flow, when the type, the
    date, the time and the party size are recorded and the special
    requests are not, the [reservation_details] call that brings them
    records them beside the four others and returns the confirmation text
    with all five details in it. In the order flow, when the item at
    [current_item_index] is the last one without details, the
    [add_item_details] call that supplies them returns the read-back of the
    full order, one line per item, with these details in the line of that
    item; it is what [confirm_full_order] gives on the data as the call
    leaves them. *)
Theorem C8_last_detail_returns_summary
    (reservation_type date time : string) (party_size : Z)
    (requests : option string) (rd : Reservation.ReservationData)
    (drink_size : string) (special_requests : option string)
    (d : OrderKr.OrderData) (current_item : OrderKr.OrderItem) :
  Reservation.one_field_left reservation_type date time party_size rd ->
  S (OrderKr.current_item_index d) = length (OrderKr.items d) ->
  OrderKr.items d !! OrderKr.current_item_index d = Some current_item ->
  (Reservation.reservation_details reservation_type date time party_size
     requests rd
   = ((None,
       "Thank you! Here are your reservation details:" +:+ nl
         +:+ "Type: " +:+ reservation_type +:+ nl
         +:+ "Date: " +:+ date +:+ nl
         +:+ "Time: " +:+ time +:+ nl
         +:+ "Party Size: " +:+ dec_Z party_size +:+ nl
         +:+ "Special Requests: "
         +:+ match requests with
             | Some (String c rest) => String c rest
             | _ => "None"
             end +:+ nl
         +:+ "Would you like to confirm this reservation?"),
      Reservation.MkReservation (Reservation.name rd)
        (Reservation.language rd) (Reservation.reservation_type rd)
        (Reservation.date rd) (Reservation.time rd)
        (Reservation.party_size rd) requests))
  /\ let items' :=
       <[OrderKr.current_item_index d :=
           OrderKr.MkOrderItem (OrderKr.name current_item)
             (Some drink_size) special_requests]> (OrderKr.items d) in
     let d' := OrderKr.MkOrderData items' (length (OrderKr.items d)) in
     OrderKr.add_item_details drink_size special_requests d
     = (OrderKr.ReturnPair None (OrderKr.read_back items'), d')
     /\ OrderKr.add_item_details drink_size special_requests d
        = OrderKr.confirm_full_order d'
     /\ items' !! OrderKr.current_item_index d
        = Some (OrderKr.MkOrderItem (OrderKr.name current_item)
                  (Some drink_size) special_requests)
     /\ length items' = length (OrderKr.items d).
Proof.
  intros (Htype & Hdate & Htime & Hparty & _) Hlast Hit. split.
  - unfold Reservation.reservation_details, Reservation.confirmation_text.
    rewrite Htype, Hdate, Htime, Hparty.
    destruct requests as [[|c rest]|]; reflexivity.
  - destruct d as [l idx].
    cbn [OrderKr.items OrderKr.current_item_index] in *.
    set (items' := <[idx := _]> l).
    set (d' := OrderKr.MkOrderData items' (length l)).
    assert (Hlen : length items' = length l) by apply length_insert.
    assert (Hne : items' <> []).
    { intros Heq. rewrite Heq in Hlen. cbn in Hlen. lia. }
    assert (Hrun : OrderKr.add_item_details drink_size special_requests
                     (OrderKr.MkOrderData l idx)
                   = OrderKr.confirm_full_order d').
    { unfold OrderKr.add_item_details.
      cbn [OrderKr.items OrderKr.current_item_index]. rewrite Hit.
      fold items'.
      rewrite (lookup_ge_None_2 items' (idx + 1)) by lia.
      subst d'. now replace (idx + 1) with (length l) by lia. }
    split; [|split; [exact Hrun|split; [|exact Hlen]]].
    + rewrite Hrun. subst d'.
      rewrite summary_not_empty_order by exact Hne.
      now rewrite order_summary_written.
    + apply list_lookup_insert_eq. lia.
Qed.

(** The witness, with the texts written out: a reservation that lacks the
    special requests only, and the order of a latte and a muffin of which
    the muffin is the item without details. *)
Lemma C8_witness :
  let rd := Reservation.MkReservation (Some "Kim"%string)
              (Some "English"%string) (Some "restaurant"%string)
              (Some "May 1"%string) (Some "7pm"%string) (Some 4%Z) None in
  let d := OrderKr.MkOrderData
             [ OrderKr.MkOrderItem "라떼" (Some "Tall"%string) None;
               OrderKr.MkOrderItem "머핀" None None ] 1 in
  (Reservation.reservation_details "restaurant" "May 1" "7pm" 4
     (Some "window seat"%string) rd
   = ((None,
       "Thank you! Here are your reservation details:" +:+ nl
         +:+ "Type: restaurant" +:+ nl
         +:+ "Date: May 1" +:+ nl
         +:+ "Time: 7pm" +:+ nl
         +:+ "Party Size: 4" +:+ nl
         +:+ "Special Requests: window seat" +:+ nl
         +:+ "Would you like to confirm this reservation?"),
      Reservation.MkReservation (Some "Kim"%string) (Some "English"%string)
        (Some "restaurant"%string) (Some "May 1"%string)
        (Some "7pm"%string) (Some 4%Z) (Some "window seat"%string)))
  /\ let items' :=
       [ OrderKr.MkOrderItem "라떼" (Some "Tall"%string) None;
         OrderKr.MkOrderItem "머핀" (Some "Short"%string)
           (Some "데워 주세요"%string) ] in
     let d' := OrderKr.MkOrderData items' 2 in
     OrderKr.add_item_details "Short" (Some "데워 주세요"%string) d
     = (OrderKr.ReturnPair None
          ("주문하신 내역 최종 확인해드리겠습니다:" +:+ nl
             +:+ "1. 메뉴: 라떼, 사이즈: Tall, 특별 요청: 없음" +:+ nl
             +:+ "2. 메뉴: 머핀, 사이즈: Short, 특별 요청: 데워 주세요"
             +:+ nl +:+ nl +:+ "이대로 주문을 진행할까요?"), d')
     /\ OrderKr.add_item_details "Short" (Some "데워 주세요"%string) d
        = OrderKr.confirm_full_order d'
     /\ items' !! 1 = Some (OrderKr.MkOrderItem "머핀" (Some "Short"%string)
                              (Some "데워 주세요"%string))
     /\ length items' = 2.
Proof.
  intros rd d.
  exact (C8_last_detail_returns_summary "restaurant" "May 1" "7pm" 4
           (Some "window seat"%string) rd "Short"
           (Some "데워 주세요"%string) d
           (OrderKr.MkOrderItem "머핀" None None)
           (conj eq_refl (conj eq_refl (conj eq_refl (conj eq_refl eq_refl))))
           eq_refl eq_refl).
Defined.

End DetailFlow.

(* ===================================================================== *)
(** * Properties of the WAV merger *)
(* ===================================================================== *)
Section FloatQuotient.
Import WavMerger SpecFloat.
Local Open Scope Z_scope.

(** ** The float quotient and its ceiling *)















Lemma binary_round_aux_sign (mx ex : Z) (lx : location) :
  match binary_round_aux 53 1024 true mx ex lx with
  | S754_finite s _ _ => s = true
  | _ => True
  end.
Proof.
  unfold binary_round_aux.
  destruct (shr_fexp 53 1024 mx ex lx) as [mrs1 e1].
  destruct (shr_fexp 53 1024 _ e1 loc_Exact) as [mrs2 e2].
  destruct (shr_m mrs2); [exact I | | exact I].
  now destruct (e2 <=? 1024 - 53).
Qed.

Lemma math_ceil_negative (x : spec_float) (k : Z) :
  match x with S754_finite s _ _ => s = true | _ => True end ->
  math_ceil x = Some k -> k <= 0.
Proof.
  destruct x as [s|s| |s m e]; cbn [math_ceil]; try discriminate.
  - intros _ [= <-]. lia.
  - intros -> [= <-]. destruct (Z.leb_spec 0 e).
    + pose proof (Z.pow_nonneg 2 e ltac:(lia)). nia.
    + assert (0 <= - Z.neg m / 2 ^ (- e)); [|lia].
      apply Z.div_pos; [lia|]. apply Z.pow_pos_nonneg; lia.
Qed.

Lemma ceil_div_negative (n : nat) (batch_size : Z) :
  batch_size < 0 -> ceil_div n batch_size <= 0.
Proof.
  intros Hneg. unfold ceil_div.
  assert (0 <= - Z.of_nat n / batch_size); [|lia].
  pose proof (Z.div_mod (- Z.of_nat n) batch_size ltac:(lia)).
  pose proof (Z.mod_neg_bound (- Z.of_nat n) batch_size Hneg).
  nia.
Qed.


(** A negative batch size never gives a batch. *)
Lemma num_batches_negative (n : nat) (batch_size : Z) :
  batch_size < 0 -> num_batches n batch_size <= 0.
Proof.
  intros Hneg. unfold num_batches.
  destruct (math_ceil (true_div (Z.of_nat n) batch_size)) as [k|] eqn:Hk;
    [|now apply ceil_div_negative].
  apply (math_ceil_negative (true_div (Z.of_nat n) batch_size)); [|exact Hk].
  destruct batch_size as [|pb|pb]; try lia.
  unfold true_div, int_as_float, SFdiv.
  destruct (Z.of_nat n) as [|pn|pn] eqn:Hn; [exact I | | lia].
  destruct (SFdiv_core_binary 53 1024 (Zpos pn) 0 (Zpos pb) 0) as [[mz ez] lz].
  apply binary_round_aux_sign.
Qed.
End FloatQuotient.

Section WavBatches.
Import WavMerger.

(** ** The ceiling and the slices *)

Lemma ceil_div_bounds (n : nat) (batch_size : Z) :
  (0 < batch_size)%Z ->
  (Z.of_nat n <= ceil_div n batch_size * batch_size
   < Z.of_nat n + batch_size)%Z
  /\ (0 <= ceil_div n batch_size)%Z.
Proof.
  intros Hpos. unfold ceil_div.
  pose proof (Z.div_mod (- Z.of_nat n) batch_size ltac:(lia)) as Hdm.
  pose proof (Z.mod_pos_bound (- Z.of_nat n) batch_size Hpos) as Hmod.
  nia.
Qed.

Lemma batch_count_covers (n : nat) (batch_size : Z) :
  (0 < batch_size)%Z ->
  let k := Z.to_nat batch_size in
  let num := Z.to_nat (ceil_div n batch_size) in
  n <= num * k /\ forall b, b < num -> b * k < n.
Proof.
  intros Hpos k num.
  destruct (ceil_div_bounds n batch_size Hpos) as [[Hlo Hhi] Hq].
  assert (Hk : Z.of_nat k = batch_size) by (subst k; lia).
  assert (Hnum : Z.of_nat num = ceil_div n batch_size) by (subst num; lia).
  split; [nia|]. intros b Hb. nia.
Qed.



(** ** The sort *)








(** ** One batch *)

Lemma read_rest_inr p rest fs :
  read_rest p rest = inr fs ->
  fs = map (fun f => frames (snd f)) rest
  /\ forall f, In f rest -> params (snd f) = p.
Proof.
  revert fs. induction rest as [|[fname w] rest IH]; cbn; intros fs.
  - intros [= <-]. split; [reflexivity | intros f []].
  - destruct (decide (params w <> p)) as [Hne|Heq]; [discriminate|].
    destruct (read_rest p rest) as [e|fs0]; [discriminate|].
    intros [= <-]. destruct (IH fs0 eq_refl) as [-> Hall].
    split; [reflexivity|]. intros f [<-|Hf]; [|now apply Hall].
    cbn. destruct (decide (params w = p)); tauto.
Qed.


Lemma combine_batch_inr output_prefix b batch o :
  combine_batch output_prefix b batch = inr o ->
  merges o batch /\ output_file o = output_name output_prefix b
  /\ same_params batch.
Proof.
  unfold combine_batch. destruct batch as [|[fname first] rest]; [discriminate|].
  destruct (read_rest (params first) rest) as [e|fs] eqn:Hrest; [discriminate|].
  intros [= <-]. apply read_rest_inr in Hrest as [-> Hall].
  split; [split; reflexivity|]. split; [reflexivity|].
  assert (Hfirst : forall f, In f ((fname, first) :: rest) ->
                             params (snd f) = params first).
  { intros f [<-|Hf]; [reflexivity | now apply Hall]. }
  intros f g Hf Hg. now rewrite (Hfirst f Hf), (Hfirst g Hg).
Qed.



(** ** The loop over the batches *)




Lemma Forall2_map_r {A B C} (P : A -> C -> Prop) (f : B -> C) l1 l2 :
  Forall2 (fun a b => P a (f b)) l1 l2 -> Forall2 P l1 (map f l2).
Proof. induction 1; cbn; constructor; assumption. Qed.

Lemma Forall2_output_names {B} (P : output -> B -> Prop) (f : B -> string)
    os bs :
  Forall2 (fun o b => P o b /\ output_file o = f b) os bs ->
  map output_file os = map f bs.
Proof.
  induction 1 as [|o b os bs [_ Hn] _ IH]; cbn; [reflexivity|].
  now rewrite Hn, IH.
Qed.


(** The outputs of a run of the loop are those of the batches it finished,
    in order; when it raised, the next batch is the one that failed. *)
Lemma run_batches_written output_prefix batch_size files todo :
  exists finished,
    Forall2 (fun o b => merges o (batch_slice batch_size b files)
                        /\ output_file o = output_name output_prefix b)
      (written (run_batches output_prefix batch_size files todo)) finished
    /\ match raised (run_batches output_prefix batch_size files todo) with
       | None => todo = finished
       | Some e =>
           exists b later,
             todo = finished ++ b :: later
             /\ combine_batch output_prefix b
                  (batch_slice batch_size b files) = inl e
       end.
Proof.
  induction todo as [|b todo IH]; cbn [run_batches].
  - exists []. split; [constructor | reflexivity].
  - destruct (combine_batch output_prefix b (batch_slice batch_size b files))
      as [e|o] eqn:Hc.
    + exists []. split; [constructor|]. cbn [raised]. now exists b, todo.
    + destruct IH as (finished & Hall & Hraised).
      exists (b :: finished). cbn [written raised]. split.
      * constructor; [|exact Hall].
        apply combine_batch_inr in Hc as (Hm & Hname & _). now split.
      * destruct (raised _) as [e|].
        -- destruct Hraised as (b' & later & -> & Hfail).
           now exists b', later.
        -- now rewrite Hraised.
Qed.





(** The sample call raises nothing, so that its two outputs are those of
    the two batches. *)
Example sample_call_raises_nothing :
  raised (combine_wavs_in_batches sample_int sample_folder 2 "combined")
  = None.
Proof. vm_compute. reflexivity. Qed.

(** With batches of three the stereo file "9.wav" meets the mono files and
    the call raises on it, before anything is written. *)
Example sample_mismatch_raises :
  combine_wavs_in_batches sample_int sample_folder 3 "combined"
  = MkRun [] (Some (ValueError_mismatch "9.wav")).
Proof. vm_compute. reflexivity. Qed.

(** The parameters compared include the number of frames: two mono
    recordings of the same format and of different lengths, in one batch,
    raise as well. *)
Example sample_length_mismatch_raises :
  combine_wavs_in_batches sample_int
    [ ("1.wav"%string, MkWav mono [Byte.x00; Byte.x01; Byte.x00; Byte.x01]);
      ("2.wav"%string,
       MkWav (MkParams 1 2 16000 1 "NONE" "not compressed")
         [Byte.x02; Byte.x03]) ]
    10 "combined"
  = MkRun [] (Some (ValueError_mismatch "2.wav")).
Proof. vm_compute. reflexivity. Qed.

End WavBatches.

(* ===================================================================== *)
(** * Further properties of drive-thru sessions *)
(* ===================================================================== *)
Section DriveThruCycle.
Import DriveThru.
Context {sdk : Sdk}.

(** What a tool call leaves in a session: the user data are those the tool
    body leaves, and the agent in charge changes only on a hand-off. *)
Lemma call_tool_userdata c i s r s' :
  call_tool c i s = Some (r, s') ->
  (r, userdata s') = run_tool c (current_agent s) (userdata s)
  /\ current_agent s'
     = match r with
       | Returned (Transfer next _) => next
       | _ => current_agent s
       end.
Proof.
  unfold call_tool. destruct (exposes (current_agent s) c); [|discriminate].
  destruct (run_tool c (current_agent s) (userdata s)) as [r0 d].
  destruct r0 as [[text|next text]|key]; intros [= <- <-];
    rewrite ?userdata_on_enter, ?current_agent_on_enter; split; reflexivity.
Qed.

(** The outcome of a transfer under the [agents] of [entrypoint]. *)
Lemma transfer_in_entry name cur d next :
  agents d = agents entrypoint_userdata ->
  agents entrypoint_userdata !! name = Some next ->
  _transfer_to_agent name cur d
  = (Returned (Transfer next (name +:+ " 로 이동합니다.")),
     set_prev_agent (Some cur) d).
Proof. intros Hag Hn. unfold _transfer_to_agent. now rewrite Hag, Hn. Qed.

(** X1: in a reachable session no tool call raises; a hand-off goes to the
    next agent of the cycle greeter, order taker, payment agent, pickup
    notifier, greeter, and records the agent it leaves as [prev_agent];
    any other call leaves the agent in charge where it is. *)
Theorem X1_handoffs_follow_the_cycle
    (s s' : Session) (c : tool_call) (i : string) (r : outcome) :
  reachable s ->
  call_tool c i s = Some (r, s') ->
  match r with
  | Raised_KeyError _ => False
  | Returned (Transfer next _) =>
      next = next_in_cycle (current_agent s)
      /\ current_agent s' = next
      /\ prev_agent (userdata s') = Some (current_agent s)
  | Returned (Reply _) => current_agent s' = current_agent s
  end.
Proof.
  intros Hr Hcall.
  destruct (reachable_session_inv s Hr) as (Hag & _).
  destruct (call_tool_userdata _ _ _ _ _ Hcall) as [Hrun Hcur].
  unfold call_tool in Hcall.
  destruct (exposes (current_agent s) c) eqn:Hex; [|discriminate].
  clear Hcall.
  destruct (current_agent s) eqn:Ha, c; try discriminate Hex; clear Hex;
    cbn [run_tool returned] in Hrun;
    try (injection Hrun as -> _; exact Hcur).
  - unfold to_order in Hrun.
    rewrite (transfer_in_entry _ _ _ _ Hag entry_agents_order) in Hrun.
    injection Hrun as -> ->. rewrite Hcur. repeat split.
  - unfold order_done in Hrun.
    destruct (negb _).
    + injection Hrun as -> _. exact Hcur.
    + rewrite (transfer_in_entry _ _ _ _ Hag entry_agents_payment) in Hrun.
      injection Hrun as -> ->. rewrite Hcur. repeat split.
  - unfold payment_done in Hrun.
    destruct (_ || _).
    + injection Hrun as -> _. exact Hcur.
    + rewrite (transfer_in_entry _ _ _ _ Hag entry_agents_pickup) in Hrun.
      injection Hrun as -> ->. rewrite Hcur. repeat split.
  - unfold pickup_complete in Hrun.
    rewrite (transfer_in_entry "greeter" _ (set_checked_out _ _) _ Hag
               entry_agents_greeter) in Hrun.
    injection Hrun as -> ->. rewrite Hcur. repeat split.
Qed.

(** ** Nothing is taken back *)

(** Closes a goal [keeps d d'] where [d'] is [d] with fields written. *)
Ltac keeps_fields :=
  unfold keeps; cbn;
  repeat match goal with |- _ /\ _ => split end;
  eauto; try reflexivity.

Lemma keeps_refl d : keeps d d.
Proof. keeps_fields. Qed.

Lemma keeps_trans d1 d2 d3 : keeps d1 d2 -> keeps d2 d3 -> keeps d1 d3.
Proof.
  unfold keeps.
  intros (A1 & A2 & A3 & A4 & A5 & A6 & A7 & A8)
         (B1 & B2 & B3 & B4 & B5 & B6 & B7 & B8).
  repeat match goal with |- _ /\ _ => split end; auto.
  - etransitivity; eassumption.
  - congruence.
Qed.

Lemma transfer_keeps name cur d :
  keeps d (snd (_transfer_to_agent name cur d)).
Proof.
  unfold _transfer_to_agent. destruct (agents d !! name); keeps_fields.
Qed.

Lemma run_tool_keeps c cur d : keeps d (snd (run_tool c cur d)).
Proof.
  destruct c as [name|model|plate|it sz opts|method| | |total| | ];
    cbn [run_tool returned snd fst update_name update_car_model
         update_license_plate update_pay_method confirm_total].
  1-3, 5, 8: keeps_fields.
  - (* add_item *)
    pose proof (order_items_add_item it sz opts d) as Hadd.
    unfold keeps. rewrite Hadd. cbn.
    repeat match goal with |- _ /\ _ => split end; auto.
    now apply prefix_app_r.
  - apply transfer_keeps.
  - unfold order_done. destruct (negb _);
      [apply keeps_refl | apply transfer_keeps].
  - unfold payment_done. destruct (_ || _);
      [apply keeps_refl | apply transfer_keeps].
  - unfold pickup_complete.
    eapply keeps_trans; [|apply transfer_keeps]. keeps_fields.
Qed.

Lemma step_keeps s s' : step s s' -> keeps (userdata s) (userdata s').
Proof.
  intros [c i r s0 s0' _ Hcall | m s0 _]; [|apply keeps_refl].
  destruct (call_tool_userdata _ _ _ _ _ Hcall) as [Hrun _].
  pose proof (run_tool_keeps c (current_agent s0) (userdata s0)) as Hk.
  now rewrite <- Hrun in Hk.
Qed.

(** X2: whatever happens in a session, from any state, nothing is taken
    back: a field that is set stays set, the order keeps its lines and only
    gains lines at its end, a marked checkout stays marked and the [agents]
    dict stays as it is. No tool clears anything for the next customer. *)
Theorem X2_session_never_resets (s s' : Session) :
  rtc step s s' -> keeps (userdata s) (userdata s').
Proof.
  induction 1 as [s | s1 s2 s3 Hstep _ IH]; [apply keeps_refl|].
  eapply keeps_trans; [apply step_keeps, Hstep | exact IH].
Qed.

Lemma run_script_steps script : forall s s',
  run_script script s = Some s' -> rtc step s s'.
Proof.
  induction script as [|[c i|m] rest IH]; intros s s'; cbn [run_script].
  - intros [= <-]. constructor.
  - destruct (fresh_id i s) eqn:Hfresh; [|discriminate].
    destruct (call_tool c i s) as [[r s1]|] eqn:Hcall; [|discriminate].
    intros Hrest. eapply rtc_l; [|apply IH, Hrest].
    eapply step_tool; eassumption.
  - destruct (fresh_id (id m) s) eqn:Hfresh; [|discriminate].
    intros Hrest. eapply rtc_l; [|apply IH, Hrest].
    now apply step_item.
Qed.

(** X3: a hand-off tool that raises the [KeyError] of a name missing from
    [agents] leaves the agent in charge, the chat contexts and the requests
    as they were; the user data are untouched too, unless the tool is
    [pickup_complete], which has already set [checked_out]. *)
Theorem X3_failed_handoff
    (s s' : Session) (c : tool_call) (i key : string) :
  call_tool c i s = Some (Raised_KeyError key, s') ->
  current_agent s' = current_agent s
  /\ chat_ctx s' = chat_ctx s
  /\ requests s' = requests s
  /\ (c <> call_pickup_complete -> userdata s' = userdata s)
  /\ (c = call_pickup_complete ->
      key = "greeter"%string
      /\ userdata s' = set_checked_out (Some true) (userdata s)).
Proof.
  intros Hcall.
  assert (Hs' : s' = set_userdata (userdata s') s).
  { unfold call_tool in Hcall.
    destruct (exposes (current_agent s) c); [|discriminate].
    destruct (run_tool c (current_agent s) (userdata s)) as [r0 d].
    destruct r0 as [[text|next text]|key0]; try discriminate.
    now injection Hcall as <- <-. }
  destruct (call_tool_userdata _ _ _ _ _ Hcall) as [Hrun _].
  split; [now rewrite Hs'|]. split; [now rewrite Hs'|].
  split; [now rewrite Hs'|].
  assert (Ht : forall name d d',
             (Raised_KeyError key, d')
             = _transfer_to_agent name (current_agent s) d ->
             key = name /\ d' = d).
  { intros name d d'. unfold _transfer_to_agent.
    destruct (agents d !! name); [discriminate|]. now intros [= -> ->]. }
  split.
  - intros Hc. destruct c; cbn [run_tool returned] in Hrun;
      try discriminate Hrun; try contradiction.
    + now apply Ht in Hrun.
    + unfold order_done in Hrun. destruct (negb _); [discriminate|].
      now apply Ht in Hrun.
    + unfold payment_done in Hrun. destruct (_ || _); [discriminate|].
      now apply Ht in Hrun.
  - intros ->. cbn [run_tool] in Hrun. unfold pickup_complete in Hrun.
    now apply Ht in Hrun.
Qed.

(** ** The pickup notifier serves paid orders only *)

Lemma paid_inv_start i : paid_inv (start i).
Proof.
  unfold paid_inv, start. rewrite userdata_on_enter, current_agent_on_enter.
  cbn [userdata current_agent]. repeat split; discriminate.
Qed.

Lemma order_nonempty_add_item it sz opts d :
  order_nonempty (snd (add_item it sz opts d)).
Proof.
  unfold order_nonempty, add_item. cbn.
  destruct (or_else list_truthy (fun l => l) (order d) []); reflexivity.
Qed.

(** Splits a goal [paid_inv] into its parts, drops those about an agent
    that is not in charge and closes the others from the hypotheses. *)
Ltac paid_parts :=
  split; [assumption|]; split; intros Hrole; try discriminate Hrole;
  repeat match goal with |- _ /\ _ => split end;
  unfold order_nonempty in *; cbn; auto.

Lemma paid_inv_call_tool c i s r s' :
  paid_inv s -> call_tool c i s = Some (r, s') -> paid_inv s'.
Proof.
  intros (Hag & Hpay & Hpick) Hcall.
  destruct (call_tool_userdata _ _ _ _ _ Hcall) as [Hrun Hcur].
  unfold call_tool in Hcall.
  destruct (exposes (current_agent s) c) eqn:Hex; [|discriminate].
  clear Hcall. unfold paid_inv. rewrite Hcur. clear Hcur.
  destruct (current_agent s) eqn:Ha, c; try discriminate Hex; clear Hex;
    cbn [run_tool returned update_name update_car_model update_license_plate
         update_pay_method confirm_total fst snd] in Hrun;
    try specialize (Hpay eq_refl); try specialize (Hpick eq_refl).
  - unfold to_order in Hrun.
    rewrite (transfer_in_entry _ _ _ _ Hag entry_agents_order) in Hrun.
    injection Hrun as -> ->. paid_parts.
  - injection Hrun as -> ->. paid_parts.
  - injection Hrun as -> ->. paid_parts.
  - injection Hrun as -> ->. paid_parts.
  - injection Hrun as -> ->. paid_parts.
  - unfold order_done in Hrun.
    destruct (opt_truthy list_truthy (order (userdata s))) eqn:Hord;
      cbn [negb] in Hrun.
    + rewrite (transfer_in_entry _ _ _ _ Hag entry_agents_payment) in Hrun.
      injection Hrun as -> ->. paid_parts.
    + injection Hrun as -> ->. paid_parts.
  - injection Hrun as -> ->. paid_parts.
  - injection Hrun as -> ->. paid_parts.
  - unfold payment_done in Hrun.
    destruct (opt_truthy float_truthy (expense (userdata s))) eqn:Hexp;
      cbn [negb orb] in Hrun.
    2:{ injection Hrun as -> ->. paid_parts. }
    destruct (opt_truthy str_truthy (pay_method (userdata s))) eqn:Hpm;
      cbn [negb] in Hrun.
    2:{ injection Hrun as -> ->. paid_parts. }
    rewrite (transfer_in_entry _ _ _ _ Hag entry_agents_pickup) in Hrun.
    injection Hrun as -> ->. paid_parts.
  - unfold pickup_complete in Hrun.
    rewrite (transfer_in_entry "greeter" _ (set_checked_out _ _) _ Hag
               entry_agents_greeter) in Hrun.
    injection Hrun as -> ->. paid_parts.
Qed.

Lemma reachable_paid_inv s : reachable s -> paid_inv s.
Proof.
  induction 1 as [i | s s' _ IH Hstep]; [apply paid_inv_start|].
  destruct Hstep as [c i r s s' _ Hcall | m s _]; [|exact IH].
  eapply paid_inv_call_tool; eassumption.
Qed.

(** X4: in a reachable session the pickup notifier is in charge only of an
    order that is non-empty and paid, with a total that is not zero and a
    payment method that is not the empty string, and the payment agent only
    of a non-empty order. *)
Theorem X4_pickup_serves_paid_orders (s : Session) :
  reachable s ->
  (current_agent s = PaymentAgent -> order_nonempty (userdata s))
  /\ (current_agent s = PickupNotifier ->
      order_nonempty (userdata s)
      /\ opt_truthy float_truthy (expense (userdata s)) = true
      /\ opt_truthy str_truthy (pay_method (userdata s)) = true).
Proof. intros Hr. now destruct (reachable_paid_inv s Hr) as (_ & ? & ?). Qed.

End DriveThruCycle.

Section ChatHistory.
Import DriveThru.
Context {sdk : Sdk} {contract : SdkContract sdk}.

Lemma on_enter_extends a i s b :
  chat_ctx s b `prefix_of` chat_ctx (on_enter a i s) b.
Proof.
  destruct (decide (b = a)) as [->|Hne].
  - rewrite chat_ctx_on_enter_self, copy_all. unfold add_message.
    destruct (prev_agent (userdata s)).
    + rewrite <- app_assoc. apply prefix_app_r. reflexivity.
    + apply prefix_app_r. reflexivity.
  - now rewrite chat_ctx_on_enter_other.
Qed.

Lemma step_extends s s' b :
  step s s' -> chat_ctx s b `prefix_of` chat_ctx s' b.
Proof.
  intros [c i r s0 s0' _ Hcall | m s0 _].
  - unfold call_tool in Hcall.
    destruct (exposes (current_agent s0) c); [|discriminate].
    destruct (run_tool c (current_agent s0) (userdata s0)) as [r0 d].
    destruct r0 as [[text|next text]|key]; injection Hcall as <- <-;
      try reflexivity.
    apply (on_enter_extends next i
             (set_current_agent next (set_userdata d s0)) b).
  - unfold record_item, update_chat_ctx. cbn [chat_ctx].
    destruct (decide (b = current_agent s0)) as [->|_]; [|reflexivity].
    apply prefix_app_r. reflexivity.
Qed.

(** X5: no step of a session drops or reorders what an agent's chat
    context holds: whatever happens, each agent's context keeps its items
    as a prefix and only gains items at its end. *)
Theorem X5_chat_history_only_grows (s s' : Session) (a : agent_id) :
  rtc step s s' -> chat_ctx s a `prefix_of` chat_ctx s' a.
Proof.
  induction 1 as [s | s1 s2 s3 Hstep _ IH]; [reflexivity|].
  etransitivity; [apply step_extends, Hstep | exact IH].
Qed.

(** X6: every item [on_enter] carries over comes from the previous
    agent's history, is no system or developer message (so no earlier
    summary is carried along), and has an identifier the entered agent's
    own context does not hold yet. *)
Theorem X6_carried_items_are_new_dialogue (own prev_items : list ChatItem) :
  Forall (fun m => m ∈ prev_items
                   /\ is_instructions m = false
                   /\ id m ∉ id <$> own)
    (carried own prev_items).
Proof.
  apply Forall_forall. intros m Hm. split; [|split].
  - eapply elem_of_sublist; [exact Hm | apply carried_sublist].
  - apply (copy_no_instructions false prev_items).
    unfold carried in Hm. apply list_elem_of_filter in Hm as [_ Hm].
    eapply elem_of_sublist; [exact Hm|].
    apply truncate_sublist, copied_no_instructions.
  - eapply carried_not_own, Hm.
Qed.

End ChatHistory.

Section DriveThruMoreSamples.
Import DriveThru.

Lemma paid_session_reachable : reachable (sdk := sample_sdk) paid_session.
Proof.
  assert (Hs : sample_paid = Some paid_session) by (vm_compute; reflexivity).
  apply bind_Some in Hs as (s1 & H1 & H2).
  eapply run_script_reachable; [|exact H2].
  assert (H1' : s1 = ordering_session).
  { assert (Ho : sample_ordering = Some ordering_session)
      by (vm_compute; reflexivity).
    congruence. }
  rewrite H1'. apply ordering_session_reachable.
Defined.

Lemma ordering_to_served :
  rtc (step (sdk := sample_sdk)) ordering_session served_session.
Proof.
  apply (run_script_steps (sdk := sample_sdk)
           [ ev_call call_order_done "item_16";
             ev_call (call_confirm_total 5300%float) "unused_3";
             ev_call (call_update_pay_method "카드") "unused_4";
             ev_call call_payment_done "item_17";
             ev_call call_pickup_complete "item_18" ]%string).
  vm_compute. reflexivity.
Defined.

Lemma X1_witness :
  PaymentAgent = next_in_cycle (current_agent ordering_session)
  /\ current_agent paying_session = PaymentAgent
  /\ prev_agent (userdata paying_session)
     = Some (current_agent ordering_session).
Proof.
  apply (X1_handoffs_follow_the_cycle (sdk := sample_sdk)
           ordering_session paying_session call_order_done "item_16"
           (Returned (Transfer PaymentAgent "payment 로 이동합니다."))).
  - exact ordering_session_reachable.
  - vm_compute. reflexivity.
Defined.

Lemma X2_witness :
  keeps (userdata ordering_session) (userdata served_session).
Proof.
  apply (X2_session_never_resets (sdk := sample_sdk)).
  exact ordering_to_served.
Defined.

Lemma X3_witness :
  let s := MkSession fresh PickupNotifier (fun _ => []) [] in
  let s' := set_userdata (set_checked_out (Some true) fresh) s in
  current_agent s' = current_agent s
  /\ chat_ctx s' = chat_ctx s
  /\ requests s' = requests s
  /\ (call_pickup_complete <> call_pickup_complete ->
      userdata s' = userdata s)
  /\ (call_pickup_complete = call_pickup_complete ->
      "greeter"%string = "greeter"%string
      /\ userdata s' = set_checked_out (Some true) (userdata s)).
Proof.
  intros s s'.
  apply (X3_failed_handoff (sdk := sample_sdk) s s' call_pickup_complete
           "item_1" "greeter").
  vm_compute. reflexivity.
Defined.

Lemma X4_witness :
  (current_agent paid_session = PaymentAgent ->
   order_nonempty (userdata paid_session))
  /\ (current_agent paid_session = PickupNotifier ->
      order_nonempty (userdata paid_session)
      /\ opt_truthy float_truthy (expense (userdata paid_session)) = true
      /\ opt_truthy str_truthy (pay_method (userdata paid_session)) = true).
Proof.
  exact (X4_pickup_serves_paid_orders (sdk := sample_sdk) paid_session
           paid_session_reachable).
Defined.

(** In the sample the pickup notifier is indeed in charge. *)
Example paid_session_at_pickup : current_agent paid_session = PickupNotifier.
Proof. vm_compute. reflexivity. Qed.

Lemma X5_witness :
  chat_ctx ordering_session BaristaOrderTaker
  `prefix_of` chat_ctx served_session BaristaOrderTaker.
Proof.
  apply (X5_chat_history_only_grows (sdk := sample_sdk)
           (contract := sample_sdk_contract)).
  exact ordering_to_served.
Defined.

Lemma X6_witness :
  Forall (fun m => m ∈ chat_ctx ordering_session BaristaOrderTaker
                   /\ is_instructions m = false
                   /\ id m ∉ id <$> chat_ctx ordering_session PaymentAgent)
    (carried (sdk := sample_sdk)
       (chat_ctx ordering_session PaymentAgent)
       (chat_ctx ordering_session BaristaOrderTaker)).
Proof.
  exact (X6_carried_items_are_new_dialogue (sdk := sample_sdk)
           (contract := sample_sdk_contract)
           (chat_ctx ordering_session PaymentAgent)
           (chat_ctx ordering_session BaristaOrderTaker)).
Defined.

End DriveThruMoreSamples.

(* ===================================================================== *)
(** * Further properties of the order and reservation flows *)
(* ===================================================================== *)
Section OrderFlow.
Import OrderKr.

Lemma filter_truthy_nonempty (l : list string) :
  Forall (fun n => n <> ""%string) (List.filter str_truthy l).
Proof.
  apply List.Forall_forall. intros n [_ Hn]%filter_In. now destruct n.
Qed.

(** X7: [order_started] records one item per comma-separated piece that is
    not blank: the names are the stripped pieces, in the order said and
    none empty, no item has details yet, the first one is the current item,
    whatever was ordered before is replaced and the order agent takes over.
    When every piece is blank it apologises, hands nothing over and leaves
    the data as they are. *)
Theorem X7_order_started_records_named_items
    (strip : string -> string) (menu_items : string) (d : OrderData) :
  let names := item_names strip menu_items in
  let d' := snd (order_started strip menu_items d) in
  Forall (fun n => n <> ""%string) names
  /\ match names with
     | [] =>
         order_started strip menu_items d
         = (ReturnPair None
              "죄송합니다, 주문하실 메뉴를 다시 말씀해주시겠어요?", d)
     | first_item_name :: _ =>
         (exists reply,
             fst (order_started strip menu_items d)
             = ReturnPair (Some OrderAgent) reply)
         /\ map name (items d') = names
         /\ Forall (fun it => size it = None /\ special_requests it = None)
              (items d')
         /\ current_item_index d' = 0
         /\ get_current_item_name d' = first_item_name
     end.
Proof.
  intros names d'. split; [apply filter_truthy_nonempty|].
  subst d'. unfold order_started. fold names.
  destruct names as [|first rest] eqn:Hn; [reflexivity|]. cbn [fst snd].
  split; [eauto|]. split.
  - cbn [items]. generalize (first :: rest). intros l.
    induction l as [|n l IH]; cbn; [reflexivity | congruence].
  - split; [|split; reflexivity]. cbn [items].
    apply List.Forall_forall. intros it [n [<- _]]%in_map_iff. now split.
Qed.

(** The data an in-range [add_item_details] call leaves. *)
Lemma add_item_details_data drink_size special d it :
  items d !! current_item_index d = Some it ->
  snd (add_item_details drink_size special d)
  = MkOrderData
      (<[current_item_index d := with_details it (drink_size, special)]>
         (items d))
      (current_item_index d + 1).
Proof.
  intros Hit. unfold add_item_details. rewrite Hit.
  cbn [items current_item_index].
  destruct (_ !! (current_item_index d + 1)); [reflexivity|].
  unfold confirm_full_order. now destruct (negb _).
Qed.

Lemma run_details_fills
    (before current later : list OrderItem)
    (calls : list (string * option string)) :
  length calls = length current ->
  run_details calls
    (MkOrderData (before ++ current ++ later) (length before))
  = MkOrderData (before ++ zip_with with_details current calls ++ later)
      (length before + length current).
Proof.
  revert before calls.
  induction current as [|it current IH]; intros before calls Hlen.
  - destruct calls; [|discriminate]. cbn. now rewrite Nat.add_0_r.
  - destruct calls as [|c calls]; [discriminate|].
    injection Hlen as Hlen. cbn [run_details].
    rewrite (add_item_details_data _ _ _ it)
      by (cbn [items current_item_index]; apply list_lookup_middle;
          reflexivity).
    cbn [items current_item_index].
    replace (<[length before := with_details it (c.1, c.2)]>
               (before ++ (it :: current) ++ later))
      with ((before ++ [with_details it c]) ++ current ++ later).
    2:{ rewrite (insert_app_r_alt before _ (length before)) by lia.
        rewrite Nat.sub_diag. cbn. rewrite <- app_assoc.
        now destruct c. }
    replace (length before + 1) with (length (before ++ [with_details it c]))
      by (rewrite length_app; reflexivity).
    rewrite (IH _ calls Hlen), length_app. cbn [zip_with length].
    rewrite <- app_assoc. cbn. f_equal. lia.
Qed.

(** X8: a run of [add_item_details] calls that starts at the current item
    fills in the items from there on, one per call and in order, with the
    size and the special requests of its call; the names, the items before
    the current one and those the run does not reach stay as they are, and
    the index advances by the number of calls. *)
Theorem X8_detail_calls_fill_items_in_order
    (before current later : list OrderItem)
    (calls : list (string * option string)) :
  length calls = length current ->
  run_details calls
    (MkOrderData (before ++ current ++ later) (length before))
  = MkOrderData (before ++ zip_with with_details current calls ++ later)
      (length before + length current).
Proof. apply run_details_fills. Qed.

(** X19: while an item is current, [get_current_item_name] names the item
    that the next [add_item_details] call fills in: after the call the item
    at that position has this name and the size and special requests of
    the call, and the items at the other positions are as before. *)
Theorem X19_current_item_is_the_one_filled_in
    (d : OrderData) (drink_size : string) (special : option string) :
  current_item_index d < length (items d) ->
  let d' := snd (add_item_details drink_size special d) in
  items d' !! current_item_index d
  = Some (MkOrderItem (get_current_item_name d) (Some drink_size) special)
  /\ (forall j, j <> current_item_index d -> items d' !! j = items d !! j)
  /\ current_item_index d' = current_item_index d + 1.
Proof.
  intros Hlt d'.
  destruct (lookup_lt_is_Some_2 _ _ Hlt) as [it Hit].
  subst d'. rewrite (add_item_details_data _ _ _ it Hit).
  cbn [items current_item_index]. unfold get_current_item_name. rewrite Hit.
  split; [now apply list_lookup_insert_eq|]. split; [|reflexivity].
  intros j Hj. now apply list_lookup_insert_ne.
Qed.

(** X20: from [order_started] to the last detail: when as many
    [add_item_details] calls follow as items were named, the order holds
    one item per name, in the order said, each with the size and the
    special requests of its call, and every item has been dealt with. *)
Theorem X20_named_items_get_their_details
    (strip : string -> string) (menu_items : string) (d : OrderData)
    (calls : list (string * option string)) :
  item_names strip menu_items <> [] ->
  length calls = length (item_names strip menu_items) ->
  run_details calls (snd (order_started strip menu_items d))
  = MkOrderData
      (zip_with (fun name c => MkOrderItem name (Some (fst c)) (snd c))
         (item_names strip menu_items) calls)
      (length (item_names strip menu_items)).
Proof.
  intros Hne Hlen. unfold order_started.
  destruct (item_names strip menu_items) as [|first rest] eqn:Hn;
    [contradiction|]. cbn [snd]. clear Hne Hn.
  pose proof (run_details_fills []
                (map (fun name => MkOrderItem name None None) (first :: rest))
                [] calls) as Hrun.
  rewrite !app_nil_r in Hrun. cbn [app length plus] in Hrun.
  rewrite Hrun by now rewrite length_map.
  rewrite length_map. f_equal.
  clear Hrun. revert calls Hlen. generalize (first :: rest). intros names.
  induction names as [|n names IH]; intros [|c calls] Hlen;
    try discriminate; [reflexivity|].
  cbn. f_equal. apply IH. now injection Hlen.
Qed.

(** X9: once the index is past the last item, [add_item_details] writes
    nothing: it answers as [confirm_full_order] does, with the read-back or,
    for an empty order, the request to start again, and any run of such
    calls leaves the data as they are. *)
Theorem X9_details_past_the_end_change_nothing
    (d : OrderData) (calls : list (string * option string))
    (drink_size : string) (special : option string) :
  length (items d) <= current_item_index d ->
  add_item_details drink_size special d = confirm_full_order d
  /\ snd (confirm_full_order d) = d
  /\ run_details calls d = d.
Proof.
  intros Hpast.
  assert (Hone : forall sz sr, add_item_details sz sr d = confirm_full_order d).
  { intros sz sr. unfold add_item_details.
    now rewrite (lookup_ge_None_2 _ _ Hpast). }
  assert (Hsame : snd (confirm_full_order d) = d).
  { unfold confirm_full_order. now destruct (negb _). }
  split; [apply Hone|]. split; [exact Hsame|].
  induction calls as [|c calls IH]; [reflexivity|].
  cbn [run_details]. now rewrite Hone, Hsame.
Qed.

Lemma run_tool_names room c d :
  let d' := snd (fst (run_tool room c d)) in
  map name (items d') = map name (items d)
  /\ current_item_index d <= current_item_index d'
  /\ current_item_index d'
     <= Nat.max (current_item_index d) (length (items d)).
Proof.
  assert (Hconfirm : snd (confirm_full_order d) = d).
  { unfold confirm_full_order. now destruct (negb _). }
  destruct c as [sz sr| | | ]; cbn [run_tool order_confirmed order_cancelled
                                     fst snd];
    try (rewrite ?Hconfirm; repeat split; lia).
  destruct (items d !! current_item_index d) as [it|] eqn:Hit.
  - rewrite (add_item_details_data _ _ _ it Hit). cbn [items current_item_index].
    pose proof (lookup_lt_Some _ _ _ Hit) as Hlt. split; [|lia].
    change (map name ?l) with (name <$> l).
    rewrite list_fmap_insert. apply list_insert_id.
    now rewrite list_lookup_fmap, Hit.
  - unfold add_item_details. rewrite Hit, Hconfirm. repeat split; lia.
Qed.

(** X10: no [OrderAgent] tool call adds, removes or renames an item or
    moves the index back, and the index never passes the number of items
    unless it already had: after any run of calls the names are the same,
    in the same order, and the index lies between its old value and the
    larger of that value and the number of items. *)
Theorem X10_order_tools_keep_the_items
    (room : string) (cs : list tool_call) (d : OrderData) :
  let d' := fst (run_calls room cs d) in
  map name (items d') = map name (items d)
  /\ current_item_index d <= current_item_index d'
  /\ current_item_index d'
     <= Nat.max (current_item_index d) (length (items d)).
Proof.
  revert d. induction cs as [|c cs IH]; intros d; cbn [run_calls].
  - cbn. repeat split; lia.
  - pose proof (run_tool_names room c d) as Hc.
    destruct (run_tool room c d) as [[r d1] issued]. cbn [fst snd] in Hc.
    specialize (IH d1). destruct (run_calls room cs d1) as [d2 later].
    cbn [fst] in *. destruct Hc as (Hn1 & Hlo1 & Hhi1).
    destruct IH as (Hn2 & Hlo2 & Hhi2).
    assert (Hlen : length (items d1) = length (items d)).
    { rewrite <- (length_map name (items d1)), Hn1. apply length_map. }
    split; [congruence|]. lia.
Qed.

(** X11: over any run of [OrderAgent] tool calls the requests made on the
    runtime are, for each completion call in turn, the interrupt, the
    closing reply that cannot be interrupted and then the room deletion;
    the detail and read-back calls make no request at all. *)
Theorem X11_room_deleted_after_closing_reply
    (room : string) (cs : list tool_call) (d : OrderData) :
  snd (run_calls room cs d) = concat (map (completion_requests room) cs).
Proof.
  revert d. induction cs as [|c cs IH]; intros d; [reflexivity|].
  cbn [run_calls map concat].
  assert (Hc : snd (run_tool room c d) = completion_requests room c)
    by (destruct c; reflexivity).
  destruct (run_tool room c d) as [[r d1] issued]. cbn [snd] in Hc.
  specialize (IH d1). destruct (run_calls room cs d1) as [d2 later].
  cbn [snd] in *. now rewrite Hc, IH.
Qed.

Lemma X8_witness :
  run_details [("Tall"%string, None); ("Short"%string, Some "warm"%string)]
    (MkOrderData
       ([MkOrderItem "latte" (Some "Venti"%string) None]
          ++ [MkOrderItem "mocha" None None; MkOrderItem "muffin" None None]
          ++ [MkOrderItem "tea" None None])
       (length [MkOrderItem "latte" (Some "Venti"%string) None]))
  = MkOrderData
      ([MkOrderItem "latte" (Some "Venti"%string) None]
         ++ zip_with with_details
              [MkOrderItem "mocha" None None; MkOrderItem "muffin" None None]
              [("Tall"%string, None); ("Short"%string, Some "warm"%string)]
         ++ [MkOrderItem "tea" None None])
      (length [MkOrderItem "latte" (Some "Venti"%string) None]
       + length [MkOrderItem "mocha" None None;
                 MkOrderItem "muffin" None None]).
Proof.
  apply (X8_detail_calls_fill_items_in_order
           [MkOrderItem "latte" (Some "Venti"%string) None]
           [MkOrderItem "mocha" None None; MkOrderItem "muffin" None None]
           [MkOrderItem "tea" None None]
           [("Tall"%string, None); ("Short"%string, Some "warm"%string)]).
  reflexivity.
Defined.

Lemma X19_witness :
  let d := MkOrderData
             [ MkOrderItem "latte" None None;
               MkOrderItem "muffin" None None ] 0 in
  let d' := snd (add_item_details "Tall" (Some "decaf"%string) d) in
  items d' !! current_item_index d
  = Some (MkOrderItem (get_current_item_name d) (Some "Tall"%string)
            (Some "decaf"%string))
  /\ (forall j, j <> current_item_index d -> items d' !! j = items d !! j)
  /\ current_item_index d' = current_item_index d + 1.
Proof.
  intros d.
  apply (X19_current_item_is_the_one_filled_in d "Tall"
           (Some "decaf"%string)).
  cbn. lia.
Defined.

Lemma X20_witness :
  run_details [("Tall"%string, None); ("Short"%string, Some "warm"%string)]
    (snd (order_started sample_strip " latte , ,muffin"
            (MkOrderData [MkOrderItem "tea" None None] 1)))
  = MkOrderData
      (zip_with (fun name c => MkOrderItem name (Some (fst c)) (snd c))
         (item_names sample_strip " latte , ,muffin")
         [("Tall"%string, None); ("Short"%string, Some "warm"%string)])
      (length (item_names sample_strip " latte , ,muffin")).
Proof.
  apply (X20_named_items_get_their_details sample_strip " latte , ,muffin"
           (MkOrderData [MkOrderItem "tea" None None] 1)
           [("Tall"%string, None); ("Short"%string, Some "warm"%string)]).
  - vm_compute. discriminate.
  - vm_compute. reflexivity.
Defined.

(** The names of the sample: the blank piece is dropped, the others
    stripped. *)
Example sample_item_names :
  item_names sample_strip " latte , ,muffin" = ["latte"; "muffin"]%string.
Proof. vm_compute. reflexivity. Qed.

Lemma X9_witness :
  let d := MkOrderData [MkOrderItem "latte" (Some "Tall"%string) None] 1 in
  add_item_details "Short" None d = confirm_full_order d
  /\ snd (confirm_full_order d) = d
  /\ run_details [("Short"%string, None); ("Venti"%string, None)] d = d.
Proof.
  intros d.
  apply (X9_details_past_the_end_change_nothing d
           [("Short"%string, None); ("Venti"%string, None)] "Short" None).
  cbn. lia.
Defined.

End OrderFlow.

Section ReservationFlow.
Import Reservation.

Lemma run_details_snoc calls c d :
  run_details (calls ++ [c]) d
  = snd (reservation_details (d_type c) (d_date c) (d_time c)
           (d_party_size c) (d_special_requests c) (run_details calls d)).
Proof.
  revert d. induction calls as [|c0 calls IH]; intros d; [reflexivity|].
  cbn [app run_details]. apply IH.
Qed.

Lemma run_details_keeps_person calls : forall d,
  name (run_details calls d) = name d
  /\ language (run_details calls d) = language d.
Proof.
  induction calls as [|c calls IH]; intros d; [now split|].
  cbn [run_details]. destruct (IH (snd (reservation_details (d_type c)
    (d_date c) (d_time c) (d_party_size c) (d_special_requests c) d)))
    as [-> ->]. now split.
Qed.

(** X12: only the last [reservation_details] call counts: after any run of
    calls the data are what the last call alone would have left, so a call
    that gives no special requests erases the ones given before; the name
    and the language are never touched. *)
Theorem X12_last_reservation_details_wins
    (calls : list details) (c : details) (d : ReservationData) :
  run_details (calls ++ [c]) d
  = snd (reservation_details (d_type c) (d_date c) (d_time c)
           (d_party_size c) (d_special_requests c) d)
  /\ special_requests (run_details (calls ++ [c]) d) = d_special_requests c
  /\ name (run_details (calls ++ [c]) d) = name d
  /\ language (run_details (calls ++ [c]) d) = language d.
Proof.
  rewrite run_details_snoc.
  destruct (run_details_keeps_person calls d) as [Hn Hl].
  cbn [reservation_details snd name language special_requests].
  rewrite Hn, Hl. repeat split; reflexivity.
Qed.

(** X13: the name and the language that [information_gathered] stores are
    those the reservation agent is built with, and they outlast every
    [reservation_details] call: the closing reply that
    [reservation_confirmed] or [reservation_cancelled] then asks for names
    that user, cannot be interrupted, and is followed by one room deletion;
    neither tool writes to the data. *)
Theorem X13_closing_reply_names_the_user
    (user_name user_language room : string) (calls : list details)
    (d : ReservationData) :
  let d1 := snd (information_gathered user_name user_language d) in
  let d2 := run_details calls d1 in
  fst (fst (information_gathered user_name user_language d))
  = Some (ReservationAgent user_name user_language)
  /\ name d2 = Some user_name
  /\ language d2 = Some user_language
  /\ reservation_confirmed room d2
     = (d2,
        [ Interrupt;
          GenerateReply
            (Some ("Confirm the reservation for " +:+ user_name
                     +:+ " and say goodbye."))
            (Some false) None;
          DeleteRoom room ])
  /\ reservation_cancelled room d2
     = (d2,
        [ Interrupt;
          GenerateReply
            (Some ("Let " +:+ user_name
                     +:+ " know the reservation was cancelled and say goodbye."))
            (Some false) None;
          DeleteRoom room ]).
Proof.
  intros d1 d2.
  destruct (run_details_keeps_person calls d1) as [Hn Hl].
  assert (Hname : name d2 = Some user_name) by (subst d2; now rewrite Hn).
  assert (Hlang : language d2 = Some user_language)
    by (subst d2; now rewrite Hl).
  split; [reflexivity|]. split; [exact Hname|]. split; [exact Hlang|].
  unfold reservation_confirmed, reservation_cancelled.
  rewrite Hname. now split.
Qed.

End ReservationFlow.

(* ===================================================================== *)
(** * Further properties of the WAV merger *)
(* ===================================================================== *)
Section WavEdges.
Import WavMerger.

Lemma filter_none {A} (f : A -> bool) (l : list A) :
  Forall (fun x => f x = false) l -> List.filter f l = [].
Proof.
  induction 1 as [|x l Hx _ IH]; [reflexivity|]. cbn. now rewrite Hx.
Qed.

(** X14: a folder without any name ending in [.wav] is left alone: nothing
    is written and nothing raised, whatever the batch size, 0 included,
    since the function returns before it divides. *)
Theorem X14_no_wav_files_no_effect
    (py_int : string -> option Z) (wav_folder : folder) (batch_size : Z)
    (output_prefix : string) :
  Forall (fun f => endswith (fst f) ".wav" = false) wav_folder ->
  combine_wavs_in_batches py_int wav_folder batch_size output_prefix
  = MkRun [] None.
Proof.
  intros Hnone. unfold combine_wavs_in_batches, sorted_files.
  now rewrite (filter_none _ _ Hnone).
Qed.

Lemma with_keys_inl py_int l :
  Exists (fun f => sort_key py_int (fst f) = None) l ->
  exists literal, with_keys py_int l = inl (ValueError_int literal).
Proof.
  induction l as [|f l IH]; intros Hex; [inversion Hex|]. cbn [with_keys].
  destruct (sort_key py_int (fst f)) as [k|] eqn:Hk; [|eauto].
  apply List.Exists_cons in Hex as [Hhere|Hlater]; [congruence|].
  destruct (IH Hlater) as [literal ->]. eauto.
Qed.

(** X15: one [.wav] name whose stem [int] does not accept is enough for the
    sort to raise: nothing is written, whatever the other files and the
    batch size are. *)
Theorem X15_bad_stem_stops_everything
    (py_int : string -> option Z) (wav_folder : folder) (batch_size : Z)
    (output_prefix : string) (f : string * wav) :
  In f wav_folder ->
  endswith (fst f) ".wav" = true ->
  sort_key py_int (fst f) = None ->
  exists literal,
    combine_wavs_in_batches py_int wav_folder batch_size output_prefix
    = MkRun [] (Some (ValueError_int literal)).
Proof.
  intros Hin Hwav Hkey. unfold combine_wavs_in_batches, sorted_files.
  destruct (with_keys_inl py_int
              (List.filter (fun f => endswith (fst f) ".wav") wav_folder))
    as [literal ->]; [|eauto].
  apply List.Exists_exists. exists f. split; [|exact Hkey].
  apply filter_In. now split.
Qed.

(** X16: with files to merge, a batch size of 0 raises the division error
    before anything is written, and a negative batch size makes the call
    return without writing or raising anything. *)
Theorem X16_batch_size_not_positive
    (py_int : string -> option Z) (wav_folder : folder) (batch_size : Z)
    (output_prefix : string) (files : list (string * wav)) :
  (batch_size <= 0)%Z ->
  sorted_files py_int wav_folder = inr files ->
  files <> [] ->
  combine_wavs_in_batches py_int wav_folder batch_size output_prefix
  = MkRun [] (if (batch_size =? 0)%Z then Some ZeroDivisionError else None).
Proof.
  intros Hbs Hfiles Hne. unfold combine_wavs_in_batches. rewrite Hfiles.
  destruct files as [|f0 files0]; [contradiction|]. cbn [list_truthy negb].
  destruct (batch_size =? 0)%Z eqn:Hz; [reflexivity|].
  apply Z.eqb_neq in Hz.
  pose proof (num_batches_negative (length (f0 :: files0)) batch_size
                ltac:(lia)) as Hnum.
  now replace (Z.to_nat _) with 0 by lia.
Qed.

(** ** What a raising call has written *)

Lemma read_rest_mismatch p rest fname :
  read_rest p rest = inl (ValueError_mismatch fname) ->
  exists w, In (fname, w) rest /\ params w <> p.
Proof.
  induction rest as [|[gname w] rest IH]; cbn; [discriminate|].
  destruct (decide (params w <> p)) as [Hne|_].
  - intros [= <-]. exists w. split; [now left | exact Hne].
  - destruct (read_rest p rest) as [e|fs]; [|discriminate].
    intros [= ->]. destruct (IH eq_refl) as (w' & Hin & Hne).
    exists w'. split; [now right | exact Hne].
Qed.

Lemma combine_batch_mismatch output_prefix b batch fname :
  combine_batch output_prefix b batch = inl (ValueError_mismatch fname) ->
  mismatch_in batch /\ In fname (map fst batch).
Proof.
  unfold combine_batch. destruct batch as [|[gname first] rest]; [discriminate|].
  destruct (read_rest (params first) rest) as [e|fs] eqn:Hrest; [|discriminate].
  intros [= ->]. apply read_rest_mismatch in Hrest as (w & Hin & Hne).
  split.
  - exists (fname, w), (gname, first).
    split; [now right|]. split; [now left | exact Hne].
  - right. apply in_map_iff. now exists (fname, w).
Qed.

Lemma seq_split_at n finished b later :
  seq 0 n = finished ++ b :: later ->
  finished = seq 0 b /\ b < n.
Proof.
  intros Hseq.
  assert (Hb : seq 0 n !! length finished = Some b)
    by (rewrite Hseq; now apply list_lookup_middle).
  apply lookup_seq in Hb as [Hb Hlt]. cbn in Hb. subst b.
  split; [|exact Hlt].
  transitivity (take (length finished) (seq 0 n)).
  - rewrite Hseq. symmetry. apply take_app_length.
  - rewrite take_seq. now rewrite Nat.min_l by lia.
Qed.

(** A batch index whose slice holds a file is one of the ceil(n /
    batch_size) first. *)
Lemma slice_index_in_range {A} batch_size (files : list A) b :
  (0 < batch_size)%Z ->
  batch_slice batch_size b files <> [] ->
  b < Z.to_nat (ceil_div (length files) batch_size).
Proof.
  intros Hpos Hne.
  destruct (batch_count_covers (length files) batch_size Hpos) as [Hcover _].
  cbv zeta in Hcover.
  destruct (Nat.lt_ge_cases b (Z.to_nat (ceil_div (length files) batch_size)))
    as [|Hge]; [assumption|].
  exfalso. apply Hne. unfold batch_slice.
  rewrite skipn_all2; [apply firstn_nil|]. nia.
Qed.

Lemma batches_lookup {A} batch_size (files : list A) k :
  k < Z.to_nat (ceil_div (length files) batch_size) ->
  batches batch_size files !! k = Some (batch_slice batch_size k files).
Proof.
  intros Hk. unfold batches.
  change (map ?f ?l) with (f <$> l).
  now rewrite list_lookup_fmap, lookup_seq_lt.
Qed.

Lemma batches_take {A} batch_size (files : list A) k :
  k <= Z.to_nat (ceil_div (length files) batch_size) ->
  take k (batches batch_size files)
  = map (fun b => batch_slice batch_size b files) (seq 0 k).
Proof.
  intros Hk. unfold batches.
  change (map ?f ?l) with (f <$> l).
  rewrite <- fmap_take, take_seq. do 2 f_equal. lia.
Qed.

(** X17: a call that raises the mismatch error has written the outputs of
    all the batches before the one with the mismatch, each from the files
    of its batch, and none after it; the file named in the error is a file
    of the failing batch. *)
Theorem X17_mismatch_leaves_earlier_outputs
    (py_int : string -> option Z) (wav_folder : folder) (batch_size : Z)
    (output_prefix : string) (files : list (string * wav)) (fname : string) :
  (0 < batch_size)%Z ->
  sorted_files py_int wav_folder = inr files ->
  let r := combine_wavs_in_batches py_int wav_folder batch_size
             output_prefix in
  raised r = Some (ValueError_mismatch fname) ->
  exists k batch,
    batches batch_size files !! k = Some batch
    /\ mismatch_in batch
    /\ In fname (map fst batch)
    /\ Forall2 merges (written r) (take k (batches batch_size files))
    /\ map output_file (written r) = map (output_name output_prefix) (seq 0 k).
Proof.
  intros Hpos Hfiles r Hraised. subst r.
  unfold combine_wavs_in_batches in *. rewrite Hfiles in *.
  destruct (negb (list_truthy files)); [discriminate|].
  rewrite (proj2 (Z.eqb_neq batch_size 0)) in * by lia.
  destruct (run_batches_written output_prefix batch_size files
              (seq 0 (Z.to_nat (num_batches (length files) batch_size))))
    as (finished & Hall & Hfail).
  rewrite Hraised in Hfail. destruct Hfail as (b & later & Hseq & Hc).
  apply seq_split_at in Hseq as [-> _].
  apply combine_batch_mismatch in Hc as [Hmis Hname].
  assert (Hb : b < Z.to_nat (ceil_div (length files) batch_size)).
  { apply slice_index_in_range; [exact Hpos|].
    destruct Hmis as (f & _ & Hf & _). intros Hnil.
    rewrite Hnil in Hf. destruct Hf. }
  exists b, (batch_slice batch_size b files).
  split; [now apply batches_lookup|]. split; [exact Hmis|].
  split; [exact Hname|]. split.
  - rewrite batches_take by lia. apply Forall2_map_r.
    eapply Forall2_impl; [exact Hall|]. cbn. tauto.
  - eapply Forall2_output_names, Hall.
Qed.

(** ** The names of the outputs *)

Lemma append_cancel_l (s x y : string) : s +:+ x = s +:+ y -> x = y.
Proof. induction s as [|c s IH]; cbn; [auto|]. intros [= H]. auto. Qed.

Lemma length_append (x y : string) :
  String.length (x +:+ y) = String.length x + String.length y.
Proof.
  induction x as [|c x IH]; [reflexivity|].
  change (S (String.length (x +:+ y))
          = S (String.length x + String.length y)).
  now f_equal.
Qed.

Lemma append_cancel_r (s : string) : forall x y : string,
  x +:+ s = y +:+ s -> x = y.
Proof.
  induction x as [|a x IH]; intros [|b y] Heq.
  - reflexivity.
  - apply (f_equal String.length) in Heq. rewrite !length_append in Heq.
    change (String.length (String b y)) with (S (String.length y)) in Heq.
    change (String.length "") with 0 in Heq. lia.
  - apply (f_equal String.length) in Heq. rewrite !length_append in Heq.
    change (String.length (String a x)) with (S (String.length x)) in Heq.
    change (String.length "") with 0 in Heq. lia.
  - change (String a (x +:+ s) = String b (y +:+ s)) in Heq.
    injection Heq as -> Heq. f_equal. now apply IH.
Qed.

Lemma dec_nat_inj a b : dec_nat a = dec_nat b -> a = b.
Proof.
  unfold dec_nat. intros Heq. apply DecimalNat.Unsigned.to_uint_inj.
  apply (f_equal NilEmpty.uint_of_string) in Heq.
  rewrite !NilEmpty.usu in Heq. now injection Heq.
Qed.

Lemma output_name_inj output_prefix a b :
  output_name output_prefix a = output_name output_prefix b -> a = b.
Proof.
  unfold output_name. intros Heq.
  apply append_cancel_l, append_cancel_l, append_cancel_r in Heq.
  now apply dec_nat_inj.
Qed.

(** X18: whatever the folder and the batch size, and whether the call
    raises or not, no two outputs of a call have the same name: no batch
    overwrites the output of another. *)
Theorem X18_output_names_distinct
    (py_int : string -> option Z) (wav_folder : folder) (batch_size : Z)
    (output_prefix : string) :
  NoDup (map output_file
           (written (combine_wavs_in_batches py_int wav_folder batch_size
                       output_prefix))).
Proof.
  assert (Hrun : forall files todo,
             NoDup todo ->
             NoDup (map output_file
                      (written (run_batches output_prefix batch_size files
                                  todo)))).
  { intros files todo Hnd.
    destruct (run_batches_written output_prefix batch_size files todo)
      as (finished & Hall & Hfail).
    rewrite (Forall2_output_names _ _ _ _ Hall).
    assert (Hsub : finished `sublist_of` todo).
    { destruct (raised _) as [e|].
      - destruct Hfail as (b & later & -> & _).
        apply sublist_inserts_r. reflexivity.
      - now rewrite Hfail. }
    change (map ?f ?l) with (f <$> l).
    apply NoDup_fmap_2_strong; [|eapply sublist_NoDup; eassumption].
    intros a b _ _. apply output_name_inj. }
  unfold combine_wavs_in_batches.
  destruct (sorted_files py_int wav_folder) as [e|files]; [constructor|].
  destruct (negb (list_truthy files)); [constructor|].
  destruct (batch_size =? 0)%Z; [constructor|].
  apply Hrun, NoDup_seq.
Qed.

Lemma X14_witness :
  combine_wavs_in_batches sample_int
    [("notes.txt"%string, MkWav mono []); ("wav"%string, MkWav mono [])]
    0 "combined"
  = MkRun [] None.
Proof.
  apply (X14_no_wav_files_no_effect sample_int
           [("notes.txt"%string, MkWav mono []);
            ("wav"%string, MkWav mono [])] 0 "combined").
  repeat constructor.
Defined.

Lemma X15_witness :
  exists literal,
    combine_wavs_in_batches sample_int
      (("intro.wav"%string, MkWav mono []) :: sample_folder) 2 "combined"
    = MkRun [] (Some (ValueError_int literal)).
Proof.
  apply (X15_bad_stem_stops_everything sample_int
           (("intro.wav"%string, MkWav mono []) :: sample_folder) 2
           "combined" ("intro.wav"%string, MkWav mono [])).
  - now left.
  - reflexivity.
  - reflexivity.
Defined.

Lemma X16_witness :
  combine_wavs_in_batches sample_int sample_folder (-2) "combined"
  = MkRun [] (if (-2 =? 0)%Z then Some ZeroDivisionError else None).
Proof.
  apply (X16_batch_size_not_positive sample_int sample_folder (-2)
           "combined" sample_sorted).
  - lia.
  - vm_compute. reflexivity.
  - discriminate.
Defined.

Lemma X17_witness :
  let files :=
    [ ("1.wav", MkWav mono [Byte.x00; Byte.x01; Byte.x00; Byte.x01]);
      ("2.wav", MkWav mono [Byte.x02; Byte.x03; Byte.x02; Byte.x03]);
      ("3.wav", MkWav mono []);
      ("9.wav", MkWav stereo [Byte.x08; Byte.x09; Byte.x0a; Byte.x0b]);
      ("10.wav", MkWav stereo [Byte.x04; Byte.x05; Byte.x06; Byte.x07])
    ]%string in
  let r := combine_wavs_in_batches sample_int
             (("3.wav"%string, MkWav mono []) :: sample_folder) 2
             "combined" in
  exists k batch,
    batches 2 files !! k = Some batch
    /\ mismatch_in batch
    /\ In "9.wav"%string (map fst batch)
    /\ Forall2 merges (written r) (take k (batches 2 files))
    /\ map output_file (written r) = map (output_name "combined") (seq 0 k).
Proof.
  intros files r.
  apply (X17_mismatch_leaves_earlier_outputs sample_int
           (("3.wav"%string, MkWav mono []) :: sample_folder) 2 "combined"
           files "9.wav").
  - lia.
  - vm_compute. reflexivity.
  - vm_compute. reflexivity.
Defined.

End WavEdges.
